(** * audio-multi: the duplicate-detection and download engine

    A shallow embedding of [audio_fingerprint], [find_duplicates] and
    [download_audio_files] of [audio_duplicate_finder.py], with the
    properties the specification states about them.

    Python values are modelled as follows.
    - [str] is [string]; only ASCII letters have a case and only ASCII
      blanks are white space (none of the extensions tested by the code
      contains a letter that a non-ASCII character lower-cases to).
    - [bytes] is [list byte]; [int] is [Z].
    - [dict] is a [gmap]; a list is a [list].
    - An exception is a value of [exn]; a computation that may raise
      returns a [result].
    - The file system, the message queue and the log of network requests
      are threaded explicitly. Paths are those of [posixpath]. The size of
      a file is the length of its content (nothing else writes to the disk
      during a call); a file that cannot be opened or read still has a size.
    - What the program only calls (SHA-256, [os.walk], [requests.get],
      the HTML parser, [int] on a header) is a field of [env]; SHA-256 is
      also given in full, to run the functions on it. *)

From stdpp Require Import gmap strings list pretty.
From Stdlib Require Import Ascii.
From Stdlib.Strings Require Import Byte.

Open Scope Z_scope.

(** ** Exceptions and results *)

Inductive exn : Type :=
| FileNotFoundError (path : string)
| PermissionError (path : string)
| IsADirectoryError (path : string)
| FileExistsError (path : string)
| OSError (msg : string)
| ValueError (msg : string)
| UnboundLocalError (var : string)
| RequestException (msg : string).

Inductive result (A : Type) : Type :=
| Ok (a : A)
| Raise (e : exn).

Arguments Ok {A} a.
Arguments Raise {A} e.

(** The quote character, built from its code. *)
Definition squote : string := String (ascii_of_nat 39) "".
Definition dquote_char : ascii := ascii_of_nat 34.

(** [str(e)] as CPython prints it (for a path that [repr] leaves unchanged). *)
Definition str_exn (e : exn) : string :=
  match e with
  | FileNotFoundError p =>
      "[Errno 2] No such file or directory: " +:+ squote +:+ p +:+ squote
  | PermissionError p =>
      "[Errno 13] Permission denied: " +:+ squote +:+ p +:+ squote
  | IsADirectoryError p =>
      "[Errno 21] Is a directory: " +:+ squote +:+ p +:+ squote
  | FileExistsError p =>
      "[Errno 17] File exists: " +:+ squote +:+ p +:+ squote
  | OSError m => m
  | ValueError m => m
  | UnboundLocalError v =>
      "cannot access local variable " +:+ squote +:+ v +:+ squote
      +:+ " where it is not associated with a value"
  | RequestException m => m
  end.

(** ** Python string operations used by the program *)

Module Py.

Definition chars (s : string) : list ascii := String.list_ascii_of_string s.
Definition unchars (l : list ascii) : string := String.string_of_list_ascii l.

(** [str(n)] *)
Definition str (n : Z) : string := pretty n.

(** [s[:n]] for a literal [n >= 0] *)
Definition slice_to (n : nat) (s : string) : string := unchars (take n (chars s)).

Definition lower_char (c : ascii) : ascii :=
  let n := nat_of_ascii c in
  if (Nat.leb 65 n && Nat.leb n 90)%bool then ascii_of_nat (n + 32)%nat else c.

(** [s.lower()] *)
Definition lower (s : string) : string := unchars (map lower_char (chars s)).

Fixpoint prefixb (p l : list ascii) : bool :=
  match p, l with
  | [], _ => true
  | _ :: _, [] => false
  | a :: p', b :: l' => bool_decide (a = b) && prefixb p' l'
  end.

(** [s.startswith(p)] *)
Definition startswith (s p : string) : bool := prefixb (chars p) (chars s).

(** [s.endswith(p)] *)
Definition endswith (s p : string) : bool :=
  prefixb (reverse (chars p)) (reverse (chars s)).

(** [s.endswith(ps)] for a tuple [ps] *)
Definition endswith_any (s : string) (ps : list string) : bool :=
  existsb (endswith s) ps.

Fixpoint lstrip_chars (drop_it : ascii -> bool) (l : list ascii) : list ascii :=
  match l with
  | [] => []
  | c :: l' => if drop_it c then lstrip_chars drop_it l' else l
  end.

Definition rstrip_chars (drop_it : ascii -> bool) (l : list ascii) : list ascii :=
  reverse (lstrip_chars drop_it (reverse l)).

Definition is_slash (c : ascii) : bool := bool_decide (c = "/"%char).

(** White space of [str.strip()] among the ASCII characters:
    tab, line feed, vertical tab, form feed, carriage return,
    the four separators 28 to 31, and the space. *)
Definition is_space (c : ascii) : bool :=
  let n := nat_of_ascii c in
  (Nat.leb 9 n && Nat.leb n 13) || (Nat.leb 28 n && Nat.leb n 32).

(** [s.lstrip('/')] and [s.rstrip('/')] *)
Definition lstrip_slash (s : string) : string := unchars (lstrip_chars is_slash (chars s)).
Definition rstrip_slash (s : string) : string := unchars (rstrip_chars is_slash (chars s)).

(** [s.strip()] *)
Definition strip (s : string) : string :=
  unchars (rstrip_chars is_space (lstrip_chars is_space (chars s))).

(** The part of [l] after its last [c] (all of [l] when it has none),
    as a reversed accumulator scan. *)
Fixpoint after_last (c : ascii) (acc l : list ascii) : list ascii :=
  match l with
  | [] => acc
  | x :: l' => if bool_decide (x = c) then after_last c [] l' else after_last c (acc ++ [x]) l'
  end.

(** [s.split("/")[-1]] *)
Definition last_segment (s : string) : string := unchars (after_last "/" [] (chars s)).

(** [os.path.basename(p)] of [posixpath] *)
Definition basename (p : string) : string := unchars (after_last "/" [] (chars p)).

(** [posixpath.splitext(p)[1]] for a [p] without a slash: the text from the
    last dot on, when some character before that dot is not a dot. *)
Definition splitext_ext (p : string) : string :=
  let r := reverse (chars p) in
  let ext_rev := (fix upto (l : list ascii) : option (list ascii * list ascii) :=
                    match l with
                    | [] => None
                    | x :: l' =>
                        if bool_decide (x = "."%char) then Some ([x], l')
                        else match upto l' with
                             | Some (e, rest) => Some (x :: e, rest)
                             | None => None
                             end
                    end) r in
  match ext_rev with
  | Some (e, before) =>
      if existsb (fun x => negb (bool_decide (x = "."%char))) before
      then unchars (reverse e) else ""
  | None => ""
  end.

(** [posixpath.join(a, b)] *)
Definition path_join (a b : string) : string :=
  if startswith b "/" then b
  else if bool_decide (a = "") || endswith a "/" then a +:+ b
  else a +:+ "/" +:+ b.

(** The class of characters replaced by the sanitising substitution:
    the characters lt, gt, colon, double quote, slash, backslash, bar,
    question mark, star. *)
Definition is_unsafe (c : ascii) : bool :=
  bool_decide (c = "<"%char) || bool_decide (c = ">"%char) || bool_decide (c = ":"%char)
  || bool_decide (c = dquote_char) || bool_decide (c = "/"%char)
  || bool_decide (c = "\"%char) || bool_decide (c = "|"%char)
  || bool_decide (c = "?"%char) || bool_decide (c = "*"%char).

(** [re.sub(r'[<>:...]', '_', text)] *)
Definition sub_unsafe (text : string) : string :=
  unchars (map (fun c => if is_unsafe c then "_"%char else c) (chars text)).

(** [str.encode()] of a string (ASCII in every use of the program). *)
Definition encode (s : string) : list byte := String.list_byte_of_string s.

End Py.

(** ** The result monad *)

#[global] Instance result_ret : MRet result := fun _ a => Ok a.
#[global] Instance result_bind : MBind result := fun _ _ f r =>
  match r with Ok a => f a | Raise e => Raise e end.

(** [try: body except Exception: handler] for a computation without effects. *)
Definition try_result {A} (body : result A) (handler : exn -> result A) : result A :=
  match body with Ok a => Ok a | Raise e => handler e end.

(** ** External collaborators *)

(** The response of [requests.get]: its [status_code], the value of
    [headers.get('Content-Length')], its [content] and its [text]. *)
Record response : Type := {
  status_code : Z;
  content_length : option string;
  content : list byte;
  text : string
}.

(** What the program calls and does not define.
    - [sha256_hexdigest d] is [hashlib.sha256(d).hexdigest()].
    - [os_walk top] is the list [os.walk(top)] yields: triples of a
      directory, its sub-directory names and its file names.
    - [requests_get u] is the outcome of [requests.get(u, timeout=30)].
    - [soup_anchors t] lists, in page order, the pair
      [(a["href"], a.get_text())] of every tag
      [BeautifulSoup(t, "html.parser").find_all("a", href=True)] returns.
    - [py_int s] is [int(s)], [None] standing for [ValueError]. *)
Record env : Type := {
  sha256_hexdigest : list byte -> string;
  os_walk : string -> list (string * list string * list string);
  requests_get : string -> result response;
  soup_anchors : string -> list (string * string);
  py_int : string -> option Z
}.

(** ** The file system *)

(** Whether the content of a file can be read: [OpenDenied] makes [open]
    raise, [ReadFails] makes [read] raise; [os.path.getsize] needs neither. *)
Inductive access : Type := Readable | OpenDenied | ReadFails.

#[global] Instance access_eq_dec : EqDecision access.
Proof. solve_decision. Defined.

Record file : Type := {
  file_content : list byte;
  file_access : access
}.

(** Regular files by path, and the directories that exist. *)
Record filesystem : Type := {
  files : gmap string file;
  dirs : gset string
}.

Definition file_size_of (f : file) : Z := Z.of_nat (length (file_content f)).

(** [os.path.getsize(path)] *)
Definition getsize (fs : filesystem) (path : string) : result Z :=
  match files fs !! path with
  | Some f => Ok (file_size_of f)
  | None => Raise (FileNotFoundError path)
  end.

(** [os.path.exists(path)] *)
Definition path_exists (fs : filesystem) (path : string) : bool :=
  bool_decide (is_Some (files fs !! path)) || bool_decide (path ∈ dirs fs).

(** An open binary file: the file and the position of the next read. *)
Record handle : Type := {
  h_file : file;
  h_pos : Z
}.

(** [open(path, 'rb')] *)
Definition open_rb (fs : filesystem) (path : string) : result handle :=
  match files fs !! path with
  | None => Raise (FileNotFoundError path)
  | Some f =>
      match file_access f with
      | OpenDenied => Raise (PermissionError path)
      | _ => Ok {| h_file := f; h_pos := 0 |}
      end
  end.

(** [f.seek(offset, whence)] for [whence] 0 (from the start) and 2 (from
    the end); a negative target position is an error. *)
Definition seek (f : handle) (offset whence : Z) : result handle :=
  let target := if whence =? 2 then file_size_of (h_file f) + offset else offset in
  if target <? 0 then Raise (OSError "[Errno 22] Invalid argument")
  else Ok {| h_file := h_file f; h_pos := target |}.

(** [f.read(n)]: at most [n] bytes from the position, which advances. *)
Definition read (f : handle) (n : Z) : result (list byte * handle) :=
  match file_access (h_file f) with
  | ReadFails => Raise (OSError "[Errno 5] Input/output error")
  | _ =>
      let data := take (Z.to_nat n) (drop (Z.to_nat (h_pos f)) (file_content (h_file f))) in
      Ok (data, {| h_file := h_file f; h_pos := h_pos f + Z.of_nat (length data) |})
  end.

(** ** [hashlib] objects: the bytes fed so far *)

Definition hasher : Type := list byte.
Definition sha256_new : hasher := [].
Definition update (h : hasher) (data : list byte) : hasher := h ++ data.
Definition hexdigest (E : env) (h : hasher) : string := sha256_hexdigest E h.

(** ** [audio_fingerprint] *)

(** The body of the [try] block. *)
Definition audio_fingerprint_try (E : env) (fs : filesystem) (path : string) : result string :=
  file_size ← getsize fs path;
  f ← open_rb fs path;
  f ← seek f 0 0;
  '(first_chunk, f) ← read f 65536;
  '(last_chunk, f) ←
    (if 131072 <? file_size
     then f ← seek f (-65536) 2; read f 65536
     else Ok ([], f));
  let h := sha256_new in
  let h := update h (Py.encode (Py.str file_size)) in
  let h := update h first_chunk in
  let h := update h last_chunk in
  Ok (hexdigest E h).

(** The [except Exception] handler: the hash of the size alone; an error of
    [os.path.getsize] in the handler leaves the function. *)
Definition audio_fingerprint_fallback (E : env) (fs : filesystem) (path : string) : result string :=
  file_size ← getsize fs path;
  Ok (hexdigest E (update sha256_new (Py.encode (Py.str file_size)))).

Definition audio_fingerprint (E : env) (fs : filesystem) (path : string) : result string :=
  try_result (audio_fingerprint_try E fs path)
             (fun _ => audio_fingerprint_fallback E fs path).

(** ** [find_duplicates] *)

Definition audio_extensions : list string :=
  [".mp3"; ".wav"; ".flac"; ".aac"; ".ogg"; ".m4a"; ".wma"; ".aiff"].

(** [f.lower().endswith(audio_extensions)] *)
Definition is_audio_name (f : string) : bool :=
  Py.endswith_any (Py.lower f) audio_extensions.

(** The local variables of [find_duplicates] and the message queue. *)
Record scan_state : Type := {
  fingerprints : gmap string string;
  duplicates : list (string * string);
  processed_count : Z;
  scan_msgs : list string
}.

Definition scan_init (msg_queue : list string) : scan_state :=
  {| fingerprints := ∅; duplicates := []; processed_count := 0; scan_msgs := msg_queue |}.

(** The [try] statement on one path: [processed_count] is incremented only
    after [audio_fingerprint] returned. *)
Definition scan_path (E : env) (fs : filesystem) (st : scan_state) (full_path : string)
  : scan_state :=
  match audio_fingerprint E fs full_path with
  | Ok fp =>
      let count := processed_count st + 1 in
      match fingerprints st !! fp with
      | Some original =>
          {| fingerprints := fingerprints st;
             duplicates := duplicates st ++ [(original, full_path)];
             processed_count := count;
             scan_msgs := scan_msgs st |}
      | None =>
          {| fingerprints := <[fp := full_path]> (fingerprints st);
             duplicates := duplicates st;
             processed_count := count;
             scan_msgs := scan_msgs st |}
      end
  | Raise e =>
      {| fingerprints := fingerprints st;
         duplicates := duplicates st;
         processed_count := processed_count st;
         scan_msgs := scan_msgs st ++
           ["Skipped: " +:+ Py.basename full_path +:+ " ("
            +:+ Py.slice_to 50 (str_exn e) +:+ "...)"] |}
  end.

(** The body of [for f in files]. *)
Definition scan_file (E : env) (fs : filesystem) (root : string) (st : scan_state) (f : string)
  : scan_state :=
  if is_audio_name f then scan_path E fs st (Py.path_join root f) else st.

(** The body of [for root, _, files in os.walk(folder)]. *)
Definition scan_dir (E : env) (fs : filesystem) (st : scan_state)
    (entry : string * list string * list string) : scan_state :=
  let '(root, _, files) := entry in foldl (scan_file E fs root) st files.

(** The body of [for folder in [folder1, folder2]]. *)
Definition scan_folder (E : env) (fs : filesystem) (st : scan_state) (folder : string)
  : scan_state :=
  foldl (scan_dir E fs) st (os_walk E folder).

Definition find_duplicates_state (E : env) (fs : filesystem) (folder1 folder2 : string)
    (msg_queue : list string) : scan_state :=
  foldl (scan_folder E fs) (scan_init msg_queue) [folder1; folder2].

(** [find_duplicates(folder1, folder2, msg_queue)]: the returned pair and
    the queue afterwards. *)
Definition find_duplicates (E : env) (fs : filesystem) (folder1 folder2 : string)
    (msg_queue : list string) : (list (string * string) * Z) * list string :=
  let st := find_duplicates_state E fs folder1 folder2 msg_queue in
  ((duplicates st, processed_count st), scan_msgs st).

(** ** Regular expressions, as far as the program uses them *)

Module Re.

(** Patterns: the empty pattern, a literal character, concatenation,
    alternation, and the anchor [$]. *)
Inductive regex : Type :=
| Eps
| Lit (c : ascii)
| Seq (r1 r2 : regex)
| Alt (r1 r2 : regex)
| Dollar.

(** Matching at the start of [s] with a continuation on the rest, under
    [re.IGNORECASE]. Without [re.MULTILINE], [$] matches at the end of the
    string and also just before a line feed that ends the string. *)
Fixpoint match_here (r : regex) (s : list ascii) (k : list ascii -> bool) : bool :=
  match r with
  | Eps => k s
  | Lit c =>
      match s with
      | x :: s' => bool_decide (Py.lower_char x = Py.lower_char c) && k s'
      | [] => false
      end
  | Seq r1 r2 => match_here r1 s (fun s' => match_here r2 s' k)
  | Alt r1 r2 => match_here r1 s k || match_here r2 s k
  | Dollar => (bool_decide (s = []) || bool_decide (s = ["010"%char])) && k s
  end.

(** [re.search(r, s, re.IGNORECASE) is not None]: a match at some position. *)
Fixpoint search_from (r : regex) (s : list ascii) : bool :=
  match_here r s (fun _ => true)
  || match s with
     | [] => false
     | _ :: s' => search_from r s'
     end.

Definition search (r : regex) (s : string) : bool := search_from r (Py.chars s).

(** The pattern of a word. *)
Fixpoint word (l : list ascii) : regex :=
  match l with
  | [] => Eps
  | c :: l' => Seq (Lit c) (word l')
  end.

Definition lit (s : string) : regex := word (Py.chars s).

End Re.

(** The pattern [\.(mp3|m4a|wav|aac)$]. *)
Definition audio_link_pattern : Re.regex :=
  Re.Seq (Re.Lit ".")
    (Re.Seq (Re.Alt (Re.lit "mp3") (Re.Alt (Re.lit "m4a") (Re.Alt (Re.lit "wav") (Re.lit "aac"))))
            Re.Dollar).

(** ** Extraction of the audio links of a page *)

(** [href if href.startswith("http") else f"{url.rstrip('/')}/{href.lstrip('/')}"] *)
Definition full_url (url href : string) : string :=
  if Py.startswith href "http" then href
  else Py.rstrip_slash url +:+ "/" +:+ Py.lstrip_slash href.

(** The body of [for a_tag in soup.find_all("a", href=True)]. *)
Definition collect_link (url : string) (audio_links : list (string * string))
    (a_tag : string * string) : list (string * string) :=
  let href := a_tag.1 in
  let text := Py.strip a_tag.2 in
  if Re.search audio_link_pattern href
  then audio_links ++ [(full_url url href, text)]
  else audio_links.

Definition extract_audio_links (url : string) (anchors : list (string * string))
  : list (string * string) :=
  foldl (collect_link url) [] anchors.

(** ** The state of a download session *)

(** The world ([dl_fs], [msg_queue], [net_log]: the URLs requested so far)
    and the local variables of [download_audio_files] that outlive one
    statement. [temp_filename] is [None] until its first assignment; it
    keeps its value from one iteration of the loop to the next. *)
Record dl_state : Type := {
  dl_fs : filesystem;
  msg_queue : list string;
  net_log : list string;
  existing_fingerprints : gmap string string;
  successful_downloads : Z;
  skipped_duplicates : Z;
  temp_filename : option string
}.

Definition dl_init (fs : filesystem) (q : list string) : dl_state :=
  {| dl_fs := fs; msg_queue := q; net_log := [];
     existing_fingerprints := ∅; successful_downloads := 0;
     skipped_duplicates := 0; temp_filename := None |}.

Definition with_fs (fs : filesystem) (s : dl_state) : dl_state :=
  {| dl_fs := fs; msg_queue := msg_queue s; net_log := net_log s;
     existing_fingerprints := existing_fingerprints s;
     successful_downloads := successful_downloads s;
     skipped_duplicates := skipped_duplicates s; temp_filename := temp_filename s |}.

Definition with_msg (m : string) (s : dl_state) : dl_state :=
  {| dl_fs := dl_fs s; msg_queue := msg_queue s ++ [m]; net_log := net_log s;
     existing_fingerprints := existing_fingerprints s;
     successful_downloads := successful_downloads s;
     skipped_duplicates := skipped_duplicates s; temp_filename := temp_filename s |}.

Definition with_request (u : string) (s : dl_state) : dl_state :=
  {| dl_fs := dl_fs s; msg_queue := msg_queue s; net_log := net_log s ++ [u];
     existing_fingerprints := existing_fingerprints s;
     successful_downloads := successful_downloads s;
     skipped_duplicates := skipped_duplicates s; temp_filename := temp_filename s |}.

Definition with_index (m : gmap string string) (s : dl_state) : dl_state :=
  {| dl_fs := dl_fs s; msg_queue := msg_queue s; net_log := net_log s;
     existing_fingerprints := m;
     successful_downloads := successful_downloads s;
     skipped_duplicates := skipped_duplicates s; temp_filename := temp_filename s |}.

Definition with_successful (n : Z) (s : dl_state) : dl_state :=
  {| dl_fs := dl_fs s; msg_queue := msg_queue s; net_log := net_log s;
     existing_fingerprints := existing_fingerprints s;
     successful_downloads := n;
     skipped_duplicates := skipped_duplicates s; temp_filename := temp_filename s |}.

Definition with_skipped (n : Z) (s : dl_state) : dl_state :=
  {| dl_fs := dl_fs s; msg_queue := msg_queue s; net_log := net_log s;
     existing_fingerprints := existing_fingerprints s;
     successful_downloads := successful_downloads s;
     skipped_duplicates := n; temp_filename := temp_filename s |}.

Definition with_temp (t : string) (s : dl_state) : dl_state :=
  {| dl_fs := dl_fs s; msg_queue := msg_queue s; net_log := net_log s;
     existing_fingerprints := existing_fingerprints s;
     successful_downloads := successful_downloads s;
     skipped_duplicates := skipped_duplicates s; temp_filename := Some t |}.

(** ** The monad of the session: state and exceptions *)

(** A statement maps the state to a value or an exception, and the state
    at that point: what was done before an exception stays done. *)
Definition M (A : Type) : Type := dl_state -> result A * dl_state.

#[global] Instance M_ret : MRet M := fun _ a s => (Ok a, s).
#[global] Instance M_bind : MBind M := fun _ _ f m s =>
  match m s with
  | (Ok a, s') => f a s'
  | (Raise e, s') => (Raise e, s')
  end.

Definition raise {A} (e : exn) : M A := fun s => (Raise e, s).
Definition gets {A} (f : dl_state -> A) : M A := fun s => (Ok (f s), s).
Definition modify (f : dl_state -> dl_state) : M unit := fun s => (Ok tt, f s).
Definition lift {A} (r : result A) : M A := fun s => (r, s).

(** [try: body except Exception as e: handler(e)] *)
Definition try_except {A} (body : M A) (handler : exn -> M A) : M A := fun s =>
  match body s with
  | (Ok a, s') => (Ok a, s')
  | (Raise e, s') => handler e s'
  end.

(** [for x in l: body(x)] *)
Fixpoint for_each {A} (body : A -> M unit) (l : list A) : M unit :=
  match l with
  | [] => mret tt
  | x :: l' => body x ≫= fun _ => for_each body l'
  end.

(** [enumerate(l)] *)
Definition enumerate {A} (l : list A) : list (Z * A) :=
  imap (fun i x => (Z.of_nat i, x)) l.

(** [msg_queue.put(m)] *)
Definition put_msg (m : string) : M unit := modify (with_msg m).

(** ** System calls of the session *)

(** [os.makedirs(folder, exist_ok=True)] where the parent of [folder] is
    an existing directory, so that the folder itself is all there is to
    make: the empty path and the path of a regular file are errors. *)
Definition os_makedirs (folder : string) : M unit := fun s =>
  let fs := dl_fs s in
  if bool_decide (folder = "") then (Raise (FileNotFoundError folder), s)
  else if bool_decide (is_Some (files fs !! folder)) then (Raise (FileExistsError folder), s)
  else (Ok tt, with_fs {| files := files fs; dirs := {[folder]} ∪ dirs fs |} s).

(** [os.path.exists(path)] *)
Definition os_path_exists (path : string) : M bool :=
  gets (fun s => path_exists (dl_fs s) path).

(** [with open(path, "wb") as f: f.write(data)]: the file is created or
    replaced, and is readable afterwards; the path of a directory is an error. *)
Definition write_file (path : string) (data : list byte) : M unit := fun s =>
  let fs := dl_fs s in
  if bool_decide (path ∈ dirs fs) then (Raise (IsADirectoryError path), s)
  else (Ok tt, with_fs {| files := <[path := {| file_content := data; file_access := Readable |}]> (files fs);
                         dirs := dirs fs |} s).

(** [os.remove(path)] *)
Definition os_remove (path : string) : M unit := fun s =>
  let fs := dl_fs s in
  match files fs !! path with
  | None => (Raise (FileNotFoundError path), s)
  | Some _ => (Ok tt, with_fs {| files := delete path (files fs); dirs := dirs fs |} s)
  end.

(** [os.rename(src, dst)] *)
Definition os_rename (src dst : string) : M unit := fun s =>
  let fs := dl_fs s in
  match files fs !! src with
  | None => (Raise (FileNotFoundError src), s)
  | Some f =>
      if bool_decide (dst ∈ dirs fs) then (Raise (IsADirectoryError dst), s)
      else (Ok tt, with_fs {| files := <[dst := f]> (delete src (files fs)); dirs := dirs fs |} s)
  end.

(** [requests.get(u, timeout=30)]: the request is logged. *)
Definition http_get (E : env) (u : string) : M response := fun s =>
  (requests_get E u, with_request u s).

(** [audio_fingerprint(path)] on the file system of the state. *)
Definition fingerprint (E : env) (path : string) : M string := fun s =>
  (audio_fingerprint E (dl_fs s) path, s).

(** [int(s)] *)
Definition int_of (E : env) (s : string) : M Z :=
  match py_int E s with
  | Some n => mret n
  | None => raise (ValueError ("invalid literal for int() with base 10: "
                               +:+ squote +:+ s +:+ squote))
  end.

(** Reading the local variable [temp_filename]. *)
Definition read_temp_filename : M string := fun s =>
  match temp_filename s with
  | Some t => (Ok t, s)
  | None => (Raise (UnboundLocalError "temp_filename"), s)
  end.

(** ** [download_audio_files] *)

(** The pre-scan of [existing_folder]: the body of [for f in files].
    The index is assigned, whatever it held for that fingerprint. *)
Definition prescan_file (E : env) (root f : string) : M unit :=
  if is_audio_name f then
    let full_path := Py.path_join root f in
    try_except
      (fp ← fingerprint E full_path;
       idx ← gets existing_fingerprints;
       modify (with_index (<[fp := full_path]> idx)))
      (fun e => put_msg ("Couldn't fingerprint " +:+ f +:+ ": "
                         +:+ Py.slice_to 30 (str_exn e) +:+ "..."))
  else mret tt.

Definition prescan_dir (E : env) (entry : string * list string * list string) : M unit :=
  let '(root, _, files) := entry in for_each (prescan_file E root) files.

(** The statements from [existing_fingerprints = {}] to the end of the
    [if existing_folder and os.path.exists(existing_folder)] block. *)
Definition prescan (E : env) (existing_folder : string) : M unit :=
  modify (with_index ∅);;
  present ← (if bool_decide (existing_folder = "") then mret false
             else os_path_exists existing_folder);
  if (present : bool) then
    put_msg ("Scanning existing files in: " +:+ existing_folder);;
    for_each (prescan_dir E) (os_walk E existing_folder);;
    idx ← gets existing_fingerprints;
    put_msg ("Found " +:+ Py.str (Z.of_nat (size idx))
             +:+ " existing audio files to check against")
  else mret tt.

(** The destination of a candidate: the sanitised link text with the
    extension of the last segment of the link, in the download folder. *)
Definition dest_filename (download_folder link text : string) : string :=
  let ext := Py.splitext_ext (Py.last_segment link) in
  let safe_text := Py.sub_unsafe text in
  Py.path_join download_folder (safe_text +:+ ext).

(** The integrity check on [Content-Length]: [true] when it is declared and
    differs from the size received; [int] may raise. *)
Definition size_mismatch (E : env) (r : response) : M bool :=
  match content_length r with
  | Some cl =>
      if bool_decide (cl = "") then mret false
      else expected_size ← int_of E cl;
           let actual_size := Z.of_nat (length (content r)) in
           mret (negb (actual_size =? expected_size))
  | None => mret false
  end.

(** The duplicate check on the temporary file, [true] standing for the
    [continue] after a duplicate was found. *)
Definition check_duplicate (E : env) (text temp : string) : M bool :=
  idx ← gets existing_fingerprints;
  if bool_decide (idx = ∅) then mret false
  else
    try_except
      (file_fingerprint ← fingerprint E temp;
       match idx !! file_fingerprint with
       | Some existing_file =>
           os_remove temp;;
           put_msg ("Duplicate found: " +:+ text +:+ " matches "
                    +:+ Py.basename existing_file);;
           n ← gets skipped_duplicates;
           modify (with_skipped (n + 1));;
           mret true
       | None => mret false
       end)
      (fun e => put_msg ("Error checking duplicate for " +:+ text +:+ ": "
                         +:+ Py.slice_to 30 (str_exn e) +:+ "...");;
                mret false).

(** The statements after the duplicate check: the file is kept. *)
Definition keep_file (E : env) (text temp filename : string) (r : response) : M unit :=
  os_rename temp filename;;
  n ← gets successful_downloads;
  modify (with_successful (n + 1));;
  put_msg ("Downloaded: " +:+ text +:+ " ("
           +:+ Py.str (Z.of_nat (length (content r))) +:+ " bytes)");;
  try_except
    (file_fingerprint ← fingerprint E filename;
     idx ← gets existing_fingerprints;
     modify (with_index (<[file_fingerprint := filename]> idx)))
    (fun _ => mret tt).

(** The body of the inner [try] of the loop. *)
Definition fetch_candidate (E : env) (link text filename : string) : M unit :=
  file_response ← http_get E link;
  if negb (status_code file_response =? 200) then
    put_msg ("Failed: HTTP " +:+ Py.str (status_code file_response) +:+ " for " +:+ text)
  else
    corrupted ← size_mismatch E file_response;
    if (corrupted : bool) then
      put_msg ("Corrupted: " +:+ text +:+ " (size mismatch)")
    else if Z.of_nat (length (content file_response)) =? 0 then
      put_msg ("Empty file: " +:+ text)
    else
      let temp := filename +:+ ".tmp" in
      modify (with_temp temp);;
      write_file temp (content file_response);;
      duplicate ← check_duplicate E text temp;
      if (duplicate : bool) then mret tt
      else keep_file E text temp filename file_response.

(** The handler of the inner [try]: it reads [temp_filename], whether or
    not this iteration assigned it. *)
Definition fetch_failed (text : string) (e : exn) : M unit :=
  temp ← read_temp_filename;
  present ← os_path_exists temp;
  (if (present : bool) then try_except (os_remove temp) (fun _ => mret tt) else mret tt);;
  put_msg ("Error downloading " +:+ text +:+ ": " +:+ Py.slice_to 50 (str_exn e) +:+ "...").

(** The body of [for i, (link, text) in enumerate(audio_links)];
    [total] is [len(audio_links)]. *)
Definition process_candidate (E : env) (download_folder : string) (total : Z)
    (c : Z * (string * string)) : M unit :=
  let '(i, (link, text)) := c in
  put_msg ("Processing " +:+ Py.str (i + 1) +:+ "/" +:+ Py.str total +:+ ": "
           +:+ Py.slice_to 50 text +:+ "...");;
  let filename := dest_filename download_folder link text in
  present ← os_path_exists filename;
  if (present : bool) then put_msg ("File already exists: " +:+ text)
  else try_except (fetch_candidate E link text filename) (fetch_failed text).

(** The body of the outer [try]. *)
Definition download_body (E : env) (url download_folder existing_folder : string)
  : M (Z * Z * Z) :=
  os_makedirs download_folder;;
  put_msg ("Created download folder: " +:+ download_folder);;
  prescan E existing_folder;;
  put_msg ("Fetching page: " +:+ url);;
  page ← http_get E url;
  let audio_links := extract_audio_links url (soup_anchors E (text page)) in
  let total := Z.of_nat (length audio_links) in
  put_msg ("Found " +:+ Py.str total +:+ " audio files to download");;
  modify (with_successful 0);;
  modify (with_skipped 0);;
  for_each (process_candidate E download_folder total) (enumerate audio_links);;
  successful ← gets successful_downloads;
  skipped ← gets skipped_duplicates;
  put_msg ("Download complete: " +:+ Py.str successful +:+ " downloaded, "
           +:+ Py.str skipped +:+ " duplicates skipped");;
  mret (successful, total, skipped).

(** [download_audio_files(url, download_folder, existing_folder, msg_queue)] *)
Definition download_audio_files (E : env) (url download_folder existing_folder : string)
  : M (Z * Z * Z) :=
  try_except (download_body E url download_folder existing_folder)
             (fun e => put_msg ("Download error: " +:+ str_exn e);; mret (0, 0, 0)).

(** A session from a file system and a queue: the returned triple, and the
    state at the end. *)
Definition run_download (E : env) (fs : filesystem) (q : list string)
    (url download_folder existing_folder : string) : result (Z * Z * Z) * dl_state :=
  download_audio_files E url download_folder existing_folder (dl_init fs q).

(** ** The fingerprint in the words of the specification *)

(** The first 64 KiB of a content. *)
Definition first_chunk_of (c : list byte) : list byte := take (Z.to_nat 65536) c.

(** The last 64 KiB of a content longer than 128 KiB, nothing otherwise. *)
Definition last_chunk_of (c : list byte) : list byte :=
  if 131072 <? Z.of_nat (length c)
  then drop (length c - Z.to_nat 65536)%nat c
  else [].

(** The bytes that are hashed for a content: the decimal size, the first
    chunk and the last chunk. *)
Definition fingerprint_input (c : list byte) : list byte :=
  Py.encode (Py.str (Z.of_nat (length c))) ++ first_chunk_of c ++ last_chunk_of c.

(** The bytes that are hashed by the fallback: the decimal size alone. *)
Definition size_only_input (c : list byte) : list byte :=
  Py.encode (Py.str (Z.of_nat (length c))).

(** A file as [open(path, "wb")] leaves it. *)
Definition new_file (c : list byte) : file :=
  {| file_content := c; file_access := Readable |}.

(** The fingerprint of a file that exists, by cases on its access. *)
Definition fingerprint_of (E : env) (f : file) : string :=
  sha256_hexdigest E
    (if decide (file_access f = Readable)
     then fingerprint_input (file_content f)
     else size_only_input (file_content f)).

(** ** The scan in the words of the specification *)

(** The audio files under a folder, in traversal order. *)
Definition scan_paths (E : env) (folder : string) : list string :=
  flat_map (fun entry : string * list string * list string =>
              let '(root, _, files) := entry in
              map (Py.path_join root) (List.filter is_audio_name files))
           (os_walk E folder).

(** The files that were fingerprinted, each with its fingerprint, in order. *)
Definition fingerprinted (E : env) (fs : filesystem) (paths : list string)
  : list (string * string) :=
  omap (fun p => match audio_fingerprint E fs p with
                 | Ok h => Some (p, h)
                 | Raise _ => None
                 end) paths.

(** The first path seen with fingerprint [h]. *)
Definition first_with (h : string) (seen : list (string * string)) : option string :=
  fst <$> List.find (fun x : string * string => bool_decide (x.2 = h)) seen.

(** One pair (first-seen path, this path) for every file whose fingerprint
    was seen before it, in order. *)
Fixpoint pairs_from (seen rest : list (string * string)) : list (string * string) :=
  match rest with
  | [] => []
  | (p, h) :: rest' =>
      match first_with h seen with
      | Some original => [(original, p)]
      | None => []
      end ++ pairs_from (seen ++ [(p, h)]) rest'
  end.

(** The index holds, for each fingerprint, the first path seen with it. *)
Definition index_of (seen : list (string * string)) (st : scan_state) : Prop :=
  ∀ h, fingerprints st !! h = first_with h seen.

(** ** The link filter in the words of the specification *)

(** The line feed. *)
Definition LF_char : ascii := ascii_of_nat 10.
Definition LF : string := String LF_char "".

Definition link_extensions : list string := [".mp3"; ".m4a"; ".wav"; ".aac"].

(** The link ends in one of the four extensions, whatever the case. *)
Definition ends_in_link_extension (href : string) : bool :=
  Py.endswith_any (Py.lower href) link_extensions.


(** A link that starts with a scheme and a colon: an absolute link. *)
Definition is_alpha (c : ascii) : bool :=
  let n := nat_of_ascii (Py.lower_char c) in Nat.leb 97 n && Nat.leb n 122.

Definition is_scheme_char (c : ascii) : bool :=
  let n := nat_of_ascii c in
  is_alpha c || (Nat.leb 48 n && Nat.leb n 57)
  || bool_decide (c = "+"%char) || bool_decide (c = "-"%char) || bool_decide (c = "."%char).

Fixpoint scheme_rest (l : list ascii) : bool :=
  match l with
  | [] => false
  | c :: l' =>
      if bool_decide (c = ":"%char) then true
      else if is_scheme_char c then scheme_rest l' else false
  end.

Definition is_absolute (href : string) : bool :=
  match Py.chars href with
  | c :: l => is_alpha c && scheme_rest l
  | [] => false
  end.

(** The candidates as the specification words them: the links that end in
    an extension, absolute links unchanged, relative links resolved. *)
Definition claimed_audio_links (url : string) (anchors : list (string * string))
  : list (string * string) :=
  map (fun a : string * string =>
         (if is_absolute a.1 then a.1
          else Py.rstrip_slash url +:+ "/" +:+ Py.lstrip_slash a.1,
          Py.strip a.2))
      (List.filter (fun a : string * string => ends_in_link_extension a.1) anchors).

(** ** Names for the states of a session *)

(** The message every iteration starts with. *)
Definition processing_msg (total i : Z) (text : string) : string :=
  "Processing " +:+ Py.str (i + 1) +:+ "/" +:+ Py.str total +:+ ": "
  +:+ Py.slice_to 50 text +:+ "...".

(** The state after the first message of an iteration. *)
Definition started (total i : Z) (text : string) (s : dl_state) : dl_state :=
  with_msg (processing_msg total i text) s.

(** The state after the request of an iteration. *)
Definition requested (total i : Z) (link text : string) (s : dl_state) : dl_state :=
  with_request link (started total i text s).

(** Nothing was created or counted between two states. *)
Definition nothing_gained (s s' : dl_state) : Prop :=
  files (dl_fs s') ⊆ files (dl_fs s)
  ∧ dirs (dl_fs s') = dirs (dl_fs s)
  ∧ existing_fingerprints s' = existing_fingerprints s
  ∧ successful_downloads s' = successful_downloads s
  ∧ skipped_duplicates s' = skipped_duplicates s.

(** A declared [Content-Length] that differs from the size received. *)
Definition declared_mismatch (E : env) (r : response) : Prop :=
  ∃ cl n, content_length r = Some cl ∧ cl ≠ "" ∧ py_int E cl = Some n
          ∧ n ≠ Z.of_nat (length (content r)).

(** The file system after [os.makedirs(folder, exist_ok=True)], the parent
    of [folder] being there. *)
Definition made (folder : string) (fs : filesystem) : filesystem :=
  {| files := files fs; dirs := {[folder]} ∪ dirs fs |}.

(** The index after the pre-scan: every fingerprinted file assigned in
    turn, so that the last file of a fingerprint stays. *)
Definition assign_all (seen : list (string * string)) (idx : gmap string string)
  : gmap string string :=
  foldl (fun m x => <[x.2 := x.1]> m) idx seen.

(** The last path seen with fingerprint [h]. *)
Definition last_with (h : string) (seen : list (string * string)) : option string :=
  first_with h (reverse seen).

(** The index the pre-scan of [existing_folder] builds. *)
Definition prescan_index (E : env) (fs : filesystem) (existing_folder : string)
  : gmap string string :=
  if bool_decide (existing_folder = "") then ∅
  else if path_exists fs existing_folder
       then assign_all (fingerprinted E fs (scan_paths E existing_folder)) ∅
       else ∅.

(** What the pre-scan leaves untouched, and the index it builds from the
    files [seen]. *)
Definition prescan_step (s s' : dl_state) (seen : list (string * string)) : Prop :=
  dl_fs s' = dl_fs s
  ∧ net_log s' = net_log s
  ∧ successful_downloads s' = successful_downloads s
  ∧ skipped_duplicates s' = skipped_duplicates s
  ∧ temp_filename s' = temp_filename s
  ∧ existing_fingerprints s' = assign_all seen (existing_fingerprints s).

(** The state when the loop over the candidates starts. *)
Definition at_loop_start (fs : filesystem) (idx : gmap string string) (url : string)
    (s : dl_state) : Prop :=
  dl_fs s = fs
  ∧ net_log s = [url]
  ∧ existing_fingerprints s = idx
  ∧ successful_downloads s = 0
  ∧ skipped_duplicates s = 0
  ∧ temp_filename s = None.

(** What the function returns after the loop, by the outcome of the loop. *)
Definition finish (total : Z) (loop : result unit * dl_state) : result (Z * Z * Z) * dl_state :=
  match loop with
  | (Ok _, s) =>
      (Ok (successful_downloads s, total, skipped_duplicates s),
       with_msg ("Download complete: " +:+ Py.str (successful_downloads s) +:+ " downloaded, "
                 +:+ Py.str (skipped_duplicates s) +:+ " duplicates skipped") s)
  | (Raise e, s) => (Ok (0, 0, 0), with_msg ("Download error: " +:+ str_exn e) s)
  end.

(** The declared [Content-Length], when there is one, is the size received. *)
Definition length_agrees (E : env) (r : response) : Prop :=
  match content_length r with
  | None => True
  | Some cl => cl = "" ∨ py_int E cl = Some (Z.of_nat (length (content r)))
  end.

(** A response that passes the three checks, with body [c]. *)
Definition good_response (E : env) (r : response) (c : list byte) : Prop :=
  status_code r = 200 ∧ length_agrees E r ∧ content r = c ∧ c ≠ [].

(** A destination that is free, and whose temporary path can be written. *)
Definition free_destination (fs : filesystem) (filename : string) : Prop :=
  path_exists fs filename = false ∧ filename +:+ ".tmp" ∉ dirs fs.

(** The fingerprint of fetched bytes, once written to a file. *)
Definition fingerprint_of_bytes (E : env) (c : list byte) : string :=
  sha256_hexdigest E (fingerprint_input c).

(** The file system after the temporary file was written. *)
Definition fs_written (temp : string) (c : list byte) (fs : filesystem) : filesystem :=
  {| files := <[temp := new_file c]> (files fs); dirs := dirs fs |}.

(** The state after a candidate was found to be a duplicate of [original]. *)
Definition after_duplicate (total i : Z) (link text filename original : string)
    (c : list byte) (s : dl_state) : dl_state :=
  let temp := filename +:+ ".tmp" in
  let s2 := with_fs (fs_written temp c (dl_fs s))
              (with_temp temp (requested total i link text s)) in
  with_skipped (skipped_duplicates s + 1)
    (with_msg ("Duplicate found: " +:+ text +:+ " matches " +:+ Py.basename original)
       (with_fs {| files := delete temp (files (dl_fs s2)); dirs := dirs (dl_fs s2) |} s2)).

(** The state after a candidate was kept. *)
Definition after_kept (E : env) (total i : Z) (link text filename : string)
    (c : list byte) (s : dl_state) : dl_state :=
  let temp := filename +:+ ".tmp" in
  let s2 := with_fs (fs_written temp c (dl_fs s))
              (with_temp temp (requested total i link text s)) in
  with_index (<[fingerprint_of_bytes E c := filename]> (existing_fingerprints s))
    (with_msg ("Downloaded: " +:+ text +:+ " (" +:+ Py.str (Z.of_nat (length c)) +:+ " bytes)")
       (with_successful (successful_downloads s + 1)
          (with_fs {| files := <[filename := new_file c]> (delete temp (files (dl_fs s2)));
                      dirs := dirs (dl_fs s2) |} s2))).

(** ** Names for the results of a scan *)

(** The path reported as the original of the file [x] (a path with its
    fingerprint) when [seen] holds a file with that fingerprint. *)
Definition original_of (seen : list (string * string)) (x : string * string) : string :=
  default x.1 (first_with x.2 seen).

(** The event the scan queues for a file that could not be fingerprinted. *)
Definition skipped_msg (E : env) (fs : filesystem) (p : string) : option string :=
  match audio_fingerprint E fs p with
  | Ok _ => None
  | Raise e => Some ("Skipped: " +:+ Py.basename p +:+ " ("
                     +:+ Py.slice_to 50 (str_exn e) +:+ "...)")
  end.

(** ** Names for what a session changes *)

(** Between two states the counters did not decrease and increased by at
    most [n] together. *)
Definition counted (n : Z) (s s' : dl_state) : Prop :=
  successful_downloads s ≤ successful_downloads s'
  ∧ skipped_duplicates s ≤ skipped_duplicates s'
  ∧ successful_downloads s' + skipped_duplicates s'
    ≤ successful_downloads s + skipped_duplicates s + n.

(** What the statements between two states may have touched while they
    worked on the destination [filename]: the file at [filename], the file
    at its temporary path, and the file [temp_filename] named before. They
    made no directory and removed none, and left [temp_filename] as it was
    or bound it to the temporary path of [filename]. *)
Definition frame (filename : string) (s s' : dl_state) : Prop :=
  (∀ p, p ≠ filename → p ≠ filename +:+ ".tmp" → temp_filename s ≠ Some p →
        files (dl_fs s') !! p = files (dl_fs s) !! p)
  ∧ dirs (dl_fs s') = dirs (dl_fs s)
  ∧ (temp_filename s' = temp_filename s ∨ temp_filename s' = Some (filename +:+ ".tmp")).

(** [temp_filename], once bound, names a path that ends in [.tmp]. *)
Definition temp_is_tmp (s : dl_state) : Prop :=
  ∀ t, temp_filename s = Some t → Py.endswith t ".tmp" = true.

(** ** SHA-256 (FIPS 180-4), on 32-bit words as integers *)

Module Sha256.

Definition wrap (x : Z) : Z := x mod 2 ^ 32.
Definition add32 (x y : Z) : Z := wrap (x + y).
Definition rotr (n x : Z) : Z := wrap (Z.lor (Z.shiftr x n) (Z.shiftl x (32 - n))).
Definition shr (n x : Z) : Z := Z.shiftr x n.
Definition not32 (x : Z) : Z := Z.lxor x 0xffffffff.

Definition Ch (x y z : Z) : Z := Z.lxor (Z.land x y) (Z.land (not32 x) z).
Definition Maj (x y z : Z) : Z :=
  Z.lxor (Z.lxor (Z.land x y) (Z.land x z)) (Z.land y z).
Definition Sigma0 (x : Z) : Z := Z.lxor (Z.lxor (rotr 2 x) (rotr 13 x)) (rotr 22 x).
Definition Sigma1 (x : Z) : Z := Z.lxor (Z.lxor (rotr 6 x) (rotr 11 x)) (rotr 25 x).
Definition sigma0 (x : Z) : Z := Z.lxor (Z.lxor (rotr 7 x) (rotr 18 x)) (shr 3 x).
Definition sigma1 (x : Z) : Z := Z.lxor (Z.lxor (rotr 17 x) (rotr 19 x)) (shr 10 x).

(** The first primes, by trial division. *)
Definition is_prime (n : nat) : bool :=
  Nat.leb 2 n && forallb (fun d => negb (Nat.eqb (n mod d) 0)) (seq 2 (n - 2)).

Definition first_primes (count : nat) : list Z :=
  take count (map Z.of_nat (List.filter is_prime (seq 2 400))).

(** The integer cube root, one bit at a time from bit [k - 1] down. *)
Fixpoint cube_root_bits (k : nat) (n r : Z) : Z :=
  match k with
  | O => r
  | S k' =>
      let c := r + 2 ^ Z.of_nat k' in
      cube_root_bits k' n (if c * c * c <=? n then c else r)
  end.

Definition cube_root (n : Z) : Z := cube_root_bits 40 n 0.

(** The round constants: the first 32 bits of the fractional parts of the
    cube roots of the first 64 primes. *)
Definition K : list Z :=
  Eval vm_compute in map (fun p => wrap (cube_root (p * 2 ^ 96))) (first_primes 64).

(** The initial hash value: the first 32 bits of the fractional parts of
    the square roots of the first 8 primes. *)
Definition H0 : list Z :=
  Eval vm_compute in map (fun p => wrap (Z.sqrt (p * 2 ^ 64))) (first_primes 8).

(** The message with its padding: the bit 1, zeros up to 56 modulo 64
    bytes, and the length in bits on 8 bytes. *)
Definition big_endian (width : nat) (x : Z) : list Z :=
  map (fun i => Z.shiftr x (8 * Z.of_nat (width - 1 - i)) mod 256) (seq 0 width).

Definition pad (msg : list Z) : list Z :=
  let n := Z.of_nat (length msg) in
  msg ++ [0x80] ++ replicate (Z.to_nat ((55 - n) mod 64)) 0 ++ big_endian 8 (8 * n).

Fixpoint words_of (fuel : nat) (l : list Z) : list Z :=
  match fuel, l with
  | S fuel', b0 :: b1 :: b2 :: b3 :: l' =>
      (b0 * 2 ^ 24 + b1 * 2 ^ 16 + b2 * 2 ^ 8 + b3) :: words_of fuel' l'
  | _, _ => []
  end.

Fixpoint blocks_of (fuel : nat) (ws : list Z) : list (list Z) :=
  match fuel, ws with
  | S fuel', _ :: _ => take 16 ws :: blocks_of fuel' (drop 16 ws)
  | _, _ => []
  end.

(** The message schedule, extended by [n] words. *)
Fixpoint schedule (n : nat) (w : list Z) : list Z :=
  match n with
  | O => w
  | S n' =>
      let t := length w in
      let at_ i := nth (t - i) w 0 in
      schedule n' (w ++ [add32 (add32 (sigma1 (at_ 2%nat)) (at_ 7%nat))
                               (add32 (sigma0 (at_ 15%nat)) (at_ 16%nat))])
  end.

Definition round (st : list Z) (kw : Z * Z) : list Z :=
  match st with
  | [a; b; c; d; e; f; g; h] =>
      let t1 := add32 (add32 (add32 h (Sigma1 e)) (add32 (Ch e f g) kw.1)) kw.2 in
      let t2 := add32 (Sigma0 a) (Maj a b c) in
      [add32 t1 t2; a; b; c; add32 d t1; e; f; g]
  | _ => st
  end.

Definition compress (h : list Z) (block : list Z) : list Z :=
  let w := schedule 48 block in
  zip_with add32 h (foldl round h (zip K w)).

Definition hex_digit (n : Z) : ascii :=
  ascii_of_nat (Z.to_nat (if n <? 10 then 48 + n else 87 + n)).

Definition hex_word (x : Z) : list ascii :=
  map (fun i => hex_digit (Z.shiftr x (4 * Z.of_nat (7 - i)) mod 16)) (seq 0 8).

Definition digest_words (msg : list Z) : list Z :=
  let padded := pad msg in
  let ws := words_of (length padded) padded in
  foldl compress H0 (blocks_of (length ws) ws).

(** [hashlib.sha256(data).hexdigest()] *)
Definition hexdigest (data : list byte) : string :=
  String.string_of_list_ascii
    (flat_map hex_word (digest_words (map (fun b => Z.of_N (Byte.to_N b)) data))).

End Sha256.

(** ** Concrete worlds, to run the functions *)

(** A stand-in for the hash that shows its input: the bytes as a string.
    It is injective. *)
Definition transparent_digest (d : list byte) : string := String.string_of_list_byte d.

Definition bytes_of (s : string) : list byte := String.list_byte_of_string s.

(** An environment with nothing on disk to walk and nothing on the network. *)
Definition offline : env :=
  {| sha256_hexdigest := transparent_digest;
     os_walk := fun _ => [];
     requests_get := fun u => Raise (RequestException ("no route to " +:+ u));
     soup_anchors := fun _ => [];
     py_int := fun _ => None |}.

(** The same, with SHA-256 itself as the hash. *)
Definition hashed : env :=
  {| sha256_hexdigest := Sha256.hexdigest;
     os_walk := fun _ => [];
     requests_get := fun u => Raise (RequestException ("no route to " +:+ u));
     soup_anchors := fun _ => [];
     py_int := fun _ => None |}.

(** A small library on disk: two copies of one track, an empty file, a
    one-byte file, and a twelve-byte file that may not be opened. *)
Definition fs_tracks : filesystem :=
  {| files := {[ "music/a.mp3" := new_file (bytes_of "RIFF");
                 "copy/b.mp3" := new_file (bytes_of "RIFF");
                 "music/empty.wav" := new_file [];
                 "music/two.mp3" := new_file (bytes_of "2");
                 "music/locked.mp3" :=
                   {| file_content := bytes_of "ABCDEFGHIJKL"; file_access := OpenDenied |} ]};
     dirs := {[ "music"; "copy" ]} |}.

(** Two folders to walk over [fs_tracks]: each holds one copy of the track
    (the first also a text file). *)
Definition two_folders : env :=
  {| sha256_hexdigest := transparent_digest;
     os_walk := fun top =>
       if bool_decide (top = "music") then [("music", [], ["a.mp3"; "notes.txt"])]
       else if bool_decide (top = "copy") then [("copy", [], ["b.mp3"])]
       else [];
     requests_get := fun u => Raise (RequestException ("no route to " +:+ u));
     soup_anchors := fun _ => [];
     py_int := fun _ => None |}.

(** The same two paths, neither readable: one may not be opened, the other
    fails on read; both have four bytes. *)
Definition fs_locked : filesystem :=
  {| files := {[ "music/a.mp3" :=
                   {| file_content := bytes_of "AAAA"; file_access := OpenDenied |};
                 "copy/b.mp3" :=
                   {| file_content := bytes_of "BBBB"; file_access := ReadFails |} ]};
     dirs := {[ "music"; "copy" ]} |}.

(** [int] on decimal digits, for the concrete environments. *)
Fixpoint digits_value (l : list ascii) (acc : Z) : option Z :=
  match l with
  | [] => Some acc
  | c :: l' =>
      let n := nat_of_ascii c in
      if Nat.leb 48 n && Nat.leb n 57
      then digits_value l' (10 * acc + Z.of_nat (n - 48))
      else None
  end.

Definition parse_decimal (s : string) : option Z :=
  match Py.chars s with
  | [] => None
  | l => digits_value l 0
  end.

(** A response with status 200, no [Content-Length], and a body. *)
Definition served (body : string) : response :=
  {| status_code := 200; content_length := None; content := bytes_of body; text := "" |}.

(** A page with status 200 and a text. *)
Definition page_of (t : string) : response :=
  {| status_code := 200; content_length := None; content := bytes_of t; text := t |}.

(** A site with five pages. Page [p] links twice to the same bytes, page
    [same] does so under one link text, page [old] links to the bytes of a
    file of the library, page [bad] links to an address that does not
    answer, then to a good one, and page [odd] links to three responses
    that fail a check. *)
Definition shop : env :=
  {| sha256_hexdigest := transparent_digest;
     os_walk := fun top =>
       if bool_decide (top = "library")
       then [("library", [], ["one.mp3"; "two.mp3"; "cover.jpg"])]
       else [];
     requests_get := fun u =>
       if bool_decide (u = "http://e.com/p") then Ok (page_of "p")
       else if bool_decide (u = "http://e.com/old") then Ok (page_of "old")
       else if bool_decide (u = "http://e.com/bad") then Ok (page_of "bad")
       else if bool_decide (u = "http://e.com/odd") then Ok (page_of "odd")
       else if bool_decide (u = "http://e.com/same") then Ok (page_of "same")
       else if bool_decide (u = "http://e.com/f/new.mp3") then Ok (served "hello")
       else if bool_decide (u = "http://e.com/f/again.mp3") then Ok (served "hello")
       else if bool_decide (u = "http://e.com/f/old.mp3") then Ok (served "AAA")
       else if bool_decide (u = "http://e.com/f/gone.mp3")
       then Ok {| status_code := 404; content_length := None;
                  content := bytes_of "Not Found"; text := "" |}
       else if bool_decide (u = "http://e.com/f/short.mp3")
       then Ok {| status_code := 200; content_length := Some "10";
                  content := bytes_of "abc"; text := "" |}
       else if bool_decide (u = "http://e.com/f/empty.mp3")
       then Ok {| status_code := 200; content_length := None; content := []; text := "" |}
       else Raise (RequestException "connection refused");
     soup_anchors := fun t =>
       if bool_decide (t = "p")
       then [("http://e.com/f/new.mp3", "New"); ("http://e.com/f/again.mp3", "Again")]
       else if bool_decide (t = "old") then [("http://e.com/f/old.mp3", "Old")]
       else if bool_decide (t = "bad")
       then [("http://e.com/f/down.mp3", "Down"); ("http://e.com/f/new.mp3", "New")]
       else if bool_decide (t = "odd")
       then [("http://e.com/f/gone.mp3", "Gone"); ("http://e.com/f/short.mp3", "Short");
             ("http://e.com/f/empty.mp3", "Empty")]
       else if bool_decide (t = "same")
       then [("http://e.com/f/new.mp3", "Song"); ("http://e.com/f/again.mp3", "Song")]
       else [];
     py_int := parse_decimal |}.

(** The disk of the shop's customer: a library with two files of the same
    bytes, and a download folder that already holds [Have.mp3]. *)
Definition fs_shop : filesystem :=
  {| files := {[ "library/one.mp3" := new_file (bytes_of "AAA");
                 "library/two.mp3" := new_file (bytes_of "AAA");
                 "dl/Have.mp3" := new_file (bytes_of "zzz") ]};
     dirs := {[ "library"; "dl" ]} |}.

(** A track of 64 KiB and one byte, and the same track with its last byte
    changed. *)
Definition long_track : list byte := replicate (Z.to_nat 65537) "a"%byte.

Definition fs_long : filesystem :=
  {| files := {[ "a.wav" := new_file long_track;
                 "b.wav" := new_file (<[Z.to_nat 65536 := "b"%byte]> long_track) ]};
     dirs := ∅ |}.

(** The disk of the shop's customer with a file at the temporary path of a
    download to come. *)
Definition fs_shop_tmp : filesystem :=
  {| files := <["dl/New.mp3.tmp" := new_file (bytes_of "notes")]> (files fs_shop);
     dirs := dirs fs_shop |}.

(* ================================================================= *)
(** * Properties *)

(** ** The models of the library functions, on examples *)

Example last_segment_ex : Py.last_segment "http://h/a/b.mp3" = "b.mp3".
Proof. reflexivity. Qed.
Example splitext_ex1 : Py.splitext_ext "b.tar.mp3" = ".mp3". Proof. reflexivity. Qed.
Example splitext_ex2 : Py.splitext_ext ".mp3" = "". Proof. reflexivity. Qed.
Example splitext_ex3 : Py.splitext_ext "..mp3" = "". Proof. reflexivity. Qed.
Example splitext_ex4 : Py.splitext_ext "a..mp3" = ".mp3". Proof. reflexivity. Qed.
Example splitext_ex5 : Py.splitext_ext "abc" = "". Proof. reflexivity. Qed.
Example strip_ex : Py.strip "  a b
 " = "a b". Proof. reflexivity. Qed.
Example join_ex : Py.path_join "d" "x.mp3" = "d/x.mp3". Proof. reflexivity. Qed.
Example join_ex2 : Py.path_join "d/" "x.mp3" = "d/x.mp3". Proof. reflexivity. Qed.
Example lower_ex : Py.lower "A.Mp3z[@" = "a.mp3z[@". Proof. reflexivity. Qed.
Example ends_ex : Py.endswith_any "a.mp3" [".wav"; ".mp3"] = true. Proof. reflexivity. Qed.
Example rstrip_ex : Py.rstrip_slash "http://x//" = "http://x". Proof. reflexivity. Qed.
Example sub_ex : Py.sub_unsafe "a/b:c*d\e" = "a_b_c_d_e". Proof. reflexivity. Qed.

Example sha256_constants :
  take 4 Sha256.K = [0x428a2f98; 0x71374491; 0xb5c0fbcf; 0xe9b5dba5]
  ∧ last Sha256.K = Some 0xc67178f2
  ∧ length Sha256.K = 64%nat
  ∧ Sha256.H0 = [0x6a09e667; 0xbb67ae85; 0x3c6ef372; 0xa54ff53a;
                 0x510e527f; 0x9b05688c; 0x1f83d9ab; 0x5be0cd19].
Proof. repeat split; vm_compute; reflexivity. Qed.

Example sha256_empty :
  Sha256.hexdigest []
  = "e3b0c44298fc1c149afbf4c8996fb92427ae41e4649b934ca495991b7852b855".
Proof. vm_compute. reflexivity. Qed.

Example sha256_abc :
  Sha256.hexdigest (bytes_of "abc")
  = "ba7816bf8f01cfea414140de5dae2223b00361a396177a9cb410ff61f20015ad".
Proof. vm_compute. reflexivity. Qed.

(** Two blocks: 200 bytes. *)
Example sha256_two_blocks :
  Sha256.hexdigest (replicate 200 "a"%byte)
  = "c2a908d98f5df987ade41b5fce213067efbcc21ef2240212a41e54b5e7c28ae5".
Proof. vm_compute. reflexivity. Qed.

Example pattern_examples :
  Re.search audio_link_pattern "a.MP3" = true
  ∧ Re.search audio_link_pattern "a.mp3?x=1" = false
  ∧ Re.search audio_link_pattern "a.mp33" = false
  ∧ Re.search audio_link_pattern "get?f=a.aac" = true
  ∧ Re.search audio_link_pattern ("a.wav" +:+ LF) = true
  ∧ Re.search audio_link_pattern ("a.wav" +:+ LF +:+ LF) = false.
Proof. repeat split; reflexivity. Qed.

(** ** Decimal strings *)

Lemma pretty_N_go_length_ge (x : N) (s : string) :
  (String.length s ≤ String.length (pretty_N_go x s))%nat.
Proof.
  revert s. induction (N.lt_wf_0 x) as [x _ IH]; intros s.
  destruct (decide (x = 0%N)) as [->|Hx].
  - by rewrite pretty_N_go_0.
  - rewrite pretty_N_go_step by lia.
    etrans; [|apply IH; apply N.div_lt; lia]. simpl. lia.
Qed.

Lemma pretty_N_go_length_mono (x y : N) (s s' : string) :
  (x ≤ y)%N → (String.length s ≤ String.length s')%nat →
  (String.length (pretty_N_go x s) ≤ String.length (pretty_N_go y s'))%nat.
Proof.
  revert x s s'. induction (N.lt_wf_0 y) as [y _ IH]; intros x s s' Hxy Hs.
  destruct (decide (x = 0%N)) as [->|Hx].
  - rewrite pretty_N_go_0. etrans; [exact Hs|apply pretty_N_go_length_ge].
  - rewrite (pretty_N_go_step x), (pretty_N_go_step y) by lia.
    apply IH.
    + apply N.div_lt; lia.
    + apply N.Div0.div_le_mono; lia.
    + simpl. lia.
Qed.

Lemma pretty_N_length_mono (x y : N) :
  (x ≤ y)%N → (String.length (pretty x) ≤ String.length (pretty y))%nat.
Proof.
  intros Hxy. unfold pretty, pretty_N.
  destruct (decide (x = 0%N)) as [->|Hx], (decide (y = 0%N)) as [->|Hy]; try lia.
  - rewrite pretty_N_go_step by lia.
    etrans; [|apply pretty_N_go_length_ge]. simpl. lia.
  - apply pretty_N_go_length_mono; [lia|done].
Qed.

(** The number of digits of [str(n)] grows with [n]. *)
Lemma str_length_mono (a b : Z) :
  0 ≤ a ≤ b → (String.length (Py.str a) ≤ String.length (Py.str b))%nat.
Proof.
  intros [Ha Hab]. unfold Py.str.
  assert (Hp : ∀ z, 0 ≤ z → pretty z = pretty (Z.to_N z)).
  { intros [|p|p] Hz; try done. }
  rewrite (Hp a), (Hp b) by lia.
  apply pretty_N_length_mono. lia.
Qed.

Lemma str_inj (a b : Z) : Py.str a = Py.str b → a = b.
Proof. apply pretty_Z_inj. Qed.

Lemma encode_length (s : string) : length (Py.encode s) = String.length s.
Proof.
  unfold Py.encode, String.list_byte_of_string. rewrite length_map.
  induction s as [|c s IH]; [done|]. simpl. by rewrite IH.
Qed.

Lemma encode_inj (s t : string) : Py.encode s = Py.encode t → s = t.
Proof.
  unfold Py.encode. intros H.
  rewrite <- (String.string_of_list_byte_of_string s),
          <- (String.string_of_list_byte_of_string t).
  by rewrite H.
Qed.

(** ** The file handle *)

Section fingerprint.
Context (E : env).

Lemma take_drop_all {A} (n : nat) (l : list A) :
  (n ≤ length l)%nat → take n (drop (length l - n) l) = drop (length l - n) l.
Proof. intros H. apply take_ge. rewrite length_drop. lia. Qed.

Lemma seek_start (f : handle) :
  seek f 0 0 = Ok {| h_file := h_file f; h_pos := 0 |}.
Proof. reflexivity. Qed.

Lemma seek_end (f : handle) (offset : Z) :
  0 ≤ file_size_of (h_file f) + offset →
  seek f offset 2 = Ok {| h_file := h_file f; h_pos := file_size_of (h_file f) + offset |}.
Proof.
  intros H. unfold seek. cbn [Z.eqb Pos.eqb].
  destruct (file_size_of (h_file f) + offset <? 0) eqn:Hneg; [|done].
  apply Z.ltb_lt in Hneg. lia.
Qed.

Lemma read_ok (f : handle) (n : Z) :
  file_access (h_file f) ≠ ReadFails →
  read f n =
  let data := take (Z.to_nat n) (drop (Z.to_nat (h_pos f)) (file_content (h_file f))) in
  Ok (data, {| h_file := h_file f; h_pos := h_pos f + Z.of_nat (length data) |}).
Proof. intros H. unfold read. by destruct (file_access (h_file f)). Qed.

Lemma read_fails (f : handle) (n : Z) :
  file_access (h_file f) = ReadFails → ∃ e, read f n = Raise e.
Proof. intros H. unfold read. rewrite H. eauto. Qed.

(** The [try] block on a readable file. *)
Lemma audio_fingerprint_try_readable (fs : filesystem) (p : string) (f : file) :
  files fs !! p = Some f → file_access f = Readable →
  audio_fingerprint_try E fs p
  = Ok (sha256_hexdigest E (fingerprint_input (file_content f))).
Proof.
  intros Hf Hacc.
  assert (Hne : file_access f ≠ ReadFails) by (rewrite Hacc; discriminate).
  unfold audio_fingerprint_try, getsize, open_rb. rewrite Hf, Hacc.
  cbn [mbind result_bind]. rewrite seek_start. cbn [mbind result_bind h_file].
  rewrite read_ok by done. cbn [mbind result_bind h_file h_pos].
  unfold fingerprint_input, first_chunk_of, last_chunk_of, hexdigest, update, sha256_new,
    file_size_of.
  change (Z.to_nat 0) with 0%nat. rewrite drop_0.
  destruct (131072 <? Z.of_nat (length (file_content f))) eqn:Hbig.
  - apply Z.ltb_lt in Hbig.
    rewrite seek_end by (cbn [h_file]; unfold file_size_of; lia).
    cbn [mbind result_bind h_file]. rewrite read_ok by done.
    cbn [mbind result_bind h_file h_pos]. unfold file_size_of.
    replace (Z.to_nat (Z.of_nat (length (file_content f)) + -65536))
      with (length (file_content f) - Z.to_nat 65536)%nat by lia.
    rewrite take_drop_all by lia.
    by rewrite app_nil_l, <- !app_assoc.
  - cbn [mbind result_bind]. by rewrite app_nil_l, <- !app_assoc.
Qed.

(** The [try] block raises on a file that cannot be opened or read. *)
Lemma audio_fingerprint_try_unreadable (fs : filesystem) (p : string) (f : file) :
  files fs !! p = Some f → file_access f ≠ Readable →
  ∃ e, audio_fingerprint_try E fs p = Raise e.
Proof.
  intros Hf Hacc.
  unfold audio_fingerprint_try, getsize, open_rb. rewrite Hf.
  cbn [mbind result_bind].
  destruct (file_access f) eqn:Ha; [done| |].
  - cbn [mbind result_bind]. eauto.
  - cbn [mbind result_bind]. rewrite seek_start. cbn [mbind result_bind h_file].
    destruct (read_fails {| h_file := f; h_pos := 0 |} 65536 Ha) as [e ->].
    cbn [mbind result_bind]. eauto.
Qed.

(** A readable file: the digest of the size, the first and the last chunk. *)
Lemma audio_fingerprint_readable (fs : filesystem) (p : string) (f : file) :
  files fs !! p = Some f → file_access f = Readable →
  audio_fingerprint E fs p = Ok (sha256_hexdigest E (fingerprint_input (file_content f))).
Proof.
  intros Hf Hacc. unfold audio_fingerprint.
  by rewrite (audio_fingerprint_try_readable fs p f).
Qed.

(** A file that exists and cannot be read: the digest of the size alone. *)
Lemma audio_fingerprint_unreadable (fs : filesystem) (p : string) (f : file) :
  files fs !! p = Some f → file_access f ≠ Readable →
  audio_fingerprint E fs p = Ok (sha256_hexdigest E (size_only_input (file_content f))).
Proof.
  intros Hf Hacc. unfold audio_fingerprint.
  destruct (audio_fingerprint_try_unreadable fs p f Hf Hacc) as [e ->].
  cbn [try_result]. unfold audio_fingerprint_fallback, getsize. by rewrite Hf.
Qed.

(** A missing file: the error of [os.path.getsize] in the handler. *)
Lemma audio_fingerprint_missing (fs : filesystem) (p : string) :
  files fs !! p = None →
  audio_fingerprint E fs p = Raise (FileNotFoundError p).
Proof.
  intros Hf. unfold audio_fingerprint, audio_fingerprint_try, audio_fingerprint_fallback, getsize.
  by rewrite Hf.
Qed.

(** The function raises for a missing file only. *)
Lemma audio_fingerprint_raise_inv (fs : filesystem) (p : string) (e : exn) :
  audio_fingerprint E fs p = Raise e →
  files fs !! p = None ∧ e = FileNotFoundError p.
Proof.
  intros H. destruct (files fs !! p) as [f|] eqn:Hf.
  - destruct (decide (file_access f = Readable)) as [Ha|Ha].
    + by rewrite (audio_fingerprint_readable fs p f) in H.
    + by rewrite (audio_fingerprint_unreadable fs p f) in H.
  - rewrite audio_fingerprint_missing in H by done. by inversion H.
Qed.

Lemma audio_fingerprint_present (fs : filesystem) (p : string) (f : file) :
  files fs !! p = Some f → audio_fingerprint E fs p = Ok (fingerprint_of E f).
Proof.
  intros Hf. unfold fingerprint_of. destruct (decide _) as [Ha|Ha].
  - by apply audio_fingerprint_readable.
  - by apply audio_fingerprint_unreadable.
Qed.
End fingerprint.

(** ** Sizes and hashed bytes *)

Lemma first_chunk_length (c : list byte) :
  length (first_chunk_of c) = (length c `min` Z.to_nat 65536)%nat.
Proof. unfold first_chunk_of. rewrite length_take. lia. Qed.

Lemma last_chunk_length (c : list byte) :
  length (last_chunk_of c)
  = if 131072 <? Z.of_nat (length c) then Z.to_nat 65536 else 0%nat.
Proof.
  unfold last_chunk_of. destruct (131072 <? Z.of_nat (length c)) eqn:Hbig; [|done].
  apply Z.ltb_lt in Hbig. rewrite length_drop. lia.
Qed.

Lemma chunks_length_mono (c1 c2 : list byte) :
  (length c1 ≤ length c2)%nat →
  (length (first_chunk_of c1 ++ last_chunk_of c1)
   ≤ length (first_chunk_of c2 ++ last_chunk_of c2))%nat.
Proof.
  intros H. rewrite !length_app, !first_chunk_length, !last_chunk_length.
  destruct (131072 <? Z.of_nat (length c1)) eqn:H1,
           (131072 <? Z.of_nat (length c2)) eqn:H2;
    rewrite ?Z.ltb_lt, ?Z.ltb_ge in H1, H2; lia.
Qed.

Lemma fingerprint_input_size_le (c1 c2 : list byte) :
  (length c1 ≤ length c2)%nat →
  fingerprint_input c1 = fingerprint_input c2 → length c1 = length c2.
Proof.
  intros Hle Heq. unfold fingerprint_input in Heq.
  pose proof (chunks_length_mono c1 c2 Hle) as Hchunks.
  pose proof (str_length_mono (Z.of_nat (length c1)) (Z.of_nat (length c2))) as Hdigits.
  pose proof (f_equal length Heq) as Hlen.
  rewrite !length_app, !encode_length in Hlen.
  rewrite !length_app in Hchunks.
  apply app_inj_1 in Heq as [Hstr _]; [|rewrite !encode_length; lia].
  apply encode_inj, str_inj in Hstr. lia.
Qed.

(** The hashed bytes determine the size. *)
Lemma fingerprint_input_size (c1 c2 : list byte) :
  fingerprint_input c1 = fingerprint_input c2 → length c1 = length c2.
Proof.
  intros Heq. destruct (Nat.le_ge_cases (length c1) (length c2)).
  - by apply fingerprint_input_size_le.
  - symmetry. by apply fingerprint_input_size_le.
Qed.

Lemma size_only_input_size (c1 c2 : list byte) :
  size_only_input c1 = size_only_input c2 → length c1 = length c2.
Proof. unfold size_only_input. intros H. apply encode_inj, str_inj in H. lia. Qed.

Lemma transparent_digest_inj (a b : list byte) :
  transparent_digest a = transparent_digest b → a = b.
Proof.
  unfold transparent_digest. intros H.
  rewrite <- (String.list_byte_of_string_of_list_byte a),
          <- (String.list_byte_of_string_of_list_byte b).
  by rewrite H.
Qed.

(** ** The fingerprint function *)

(** C1. For a readable file, [audio_fingerprint] returns the digest of the
    decimal size, then the first 64 KiB, then the last 64 KiB when the size
    exceeds 131072 bytes and nothing otherwise. An empty file gives the
    digest of the string 0 and two empty chunks. The result is a function of
    the content: byte-identical readable files, at any path of any file
    system, have equal fingerprints. *)
Theorem audio_fingerprint_spec (E : env) (fs : filesystem) (p : string) (f : file) :
  files fs !! p = Some f →
  file_access f = Readable →
  audio_fingerprint E fs p
    = Ok (sha256_hexdigest E
            (Py.encode (Py.str (Z.of_nat (length (file_content f))))
             ++ first_chunk_of (file_content f) ++ last_chunk_of (file_content f)))
  ∧ (file_content f = [] →
     audio_fingerprint E fs p = Ok (sha256_hexdigest E (Py.encode "0" ++ [] ++ [])))
  ∧ (∀ fs' p' f',
       files fs' !! p' = Some f' → file_access f' = Readable →
       file_content f' = file_content f →
       audio_fingerprint E fs' p' = audio_fingerprint E fs p).
Proof.
  intros Hf Hacc. split; [|split].
  - by apply audio_fingerprint_readable.
  - intros Hempty. rewrite (audio_fingerprint_readable E fs p f) by done.
    by rewrite Hempty.
  - intros fs' p' f' Hf' Hacc' Hsame.
    rewrite (audio_fingerprint_readable E fs p f), (audio_fingerprint_readable E fs' p' f') by done.
    by rewrite Hsame.
Qed.

Lemma audio_fingerprint_spec_witness :
  audio_fingerprint hashed fs_tracks "music/a.mp3"
  = Ok "82114c8d5e4a5812108c6a98d2bc47a978c5ac1347d0d37706c76e9c65fdeb2d"
  ∧ audio_fingerprint hashed fs_tracks "copy/b.mp3"
    = audio_fingerprint hashed fs_tracks "music/a.mp3".
Proof.
  pose proof (audio_fingerprint_spec hashed fs_tracks "music/a.mp3"
                (new_file (bytes_of "RIFF")) eq_refl eq_refl) as (Hdigest & _ & Hsame).
  split.
  - rewrite Hdigest. vm_compute. reflexivity.
  - exact (Hsame fs_tracks "copy/b.mp3" (new_file (bytes_of "RIFF")) eq_refl eq_refl eq_refl).
Defined.

(** The digest of an empty file is the SHA-256 of the one character 0. *)
Example empty_file_fingerprint :
  audio_fingerprint hashed fs_tracks "music/empty.wav"
  = Ok "5feceb66ffc86f38d952786c6d696c79c2dbc239dd4e91b46729d73a27fb57e9".
Proof. vm_compute. reflexivity. Qed.

(** The last chunk is read only above 131072 bytes. *)
Example last_chunk_threshold (x : byte) :
  length (last_chunk_of (replicate (Z.to_nat 131072) x)) = 0%nat
  ∧ length (last_chunk_of (replicate (Z.to_nat 131073) x)) = Z.to_nat 65536.
Proof.
  rewrite !last_chunk_length, !length_replicate.
  split; case_match eqn:Hbig; rewrite ?Z.ltb_lt, ?Z.ltb_ge in Hbig; lia.
Qed.

(** C7, as the code has it. Under an injective hash, two files of different
    sizes have different fingerprints when both are readable or both are
    unreadable: in each case the decimal size leads the hashed bytes and
    fixes their length class. *)
Theorem distinct_sizes_distinct_fingerprints (E : env)
    (fs1 fs2 : filesystem) (p1 p2 : string) (f1 f2 : file) :
  (∀ a b, sha256_hexdigest E a = sha256_hexdigest E b → a = b) →
  files fs1 !! p1 = Some f1 →
  files fs2 !! p2 = Some f2 →
  (file_access f1 = Readable ↔ file_access f2 = Readable) →
  file_size_of f1 ≠ file_size_of f2 →
  audio_fingerprint E fs1 p1 ≠ audio_fingerprint E fs2 p2.
Proof.
  intros Hinj Hf1 Hf2 Hsame Hsize Heq.
  rewrite (audio_fingerprint_present E fs1 p1 f1), (audio_fingerprint_present E fs2 p2 f2)
    in Heq by done.
  injection Heq as Heq. apply Hinj in Heq. apply Hsize. unfold file_size_of.
  f_equal.
  destruct (decide (file_access f1 = Readable)) as [H1|H1],
           (decide (file_access f2 = Readable)) as [H2|H2].
  - by apply fingerprint_input_size.
  - by apply Hsame in H1.
  - by apply Hsame in H2.
  - by apply size_only_input_size.
Qed.

Lemma distinct_sizes_distinct_fingerprints_witness :
  audio_fingerprint offline fs_tracks "music/a.mp3"
  ≠ audio_fingerprint offline fs_tracks "music/two.mp3".
Proof.
  apply (distinct_sizes_distinct_fingerprints offline fs_tracks fs_tracks
           "music/a.mp3" "music/two.mp3"
           (new_file (bytes_of "RIFF")) (new_file (bytes_of "2"))).
  - exact transparent_digest_inj.
  - reflexivity.
  - reflexivity.
  - split; reflexivity.
  - vm_compute. discriminate.
Defined.

(** C7, as stated, fails: the hash [transparent_digest] is injective, the
    one-byte readable file [two.mp3] (content 2) and the twelve-byte file
    [locked.mp3] that cannot be opened differ in size, and both are hashed
    from the bytes 12. *)
Lemma distinct_sizes_equal_fingerprints :
  (∀ a b, sha256_hexdigest offline a = sha256_hexdigest offline b → a = b)
  ∧ getsize fs_tracks "music/two.mp3" = Ok 1
  ∧ getsize fs_tracks "music/locked.mp3" = Ok 12
  ∧ audio_fingerprint offline fs_tracks "music/two.mp3" = Ok "12"
  ∧ audio_fingerprint offline fs_tracks "music/locked.mp3" = Ok "12".
Proof.
  split; [exact transparent_digest_inj|].
  repeat split; reflexivity.
Qed.

(** ** The duplicate scanner *)

Section scanner.
Context (E : env) (fs : filesystem).

Lemma scan_files_paths (root : string) (files : list string) (st : scan_state) :
  foldl (scan_file E fs root) st files
  = foldl (scan_path E fs) st (map (Py.path_join root) (List.filter is_audio_name files)).
Proof.
  revert st. induction files as [|f files IH]; intros st; [done|].
  cbn [foldl List.filter]. rewrite IH. unfold scan_file.
  by destruct (is_audio_name f).
Qed.

Lemma scan_folder_paths (folder : string) (st : scan_state) :
  scan_folder E fs st folder = foldl (scan_path E fs) st (scan_paths E folder).
Proof.
  unfold scan_folder, scan_paths. revert st.
  induction (os_walk E folder) as [|[[root ds] files] walk IH]; intros st; [done|].
  cbn [foldl flat_map]. rewrite foldl_app, IH. f_equal.
  unfold scan_dir. apply scan_files_paths.
Qed.

(** One index serves both roots: the scan is one pass over the files of the
    first folder followed by those of the second. *)
Lemma find_duplicates_state_paths (folder1 folder2 : string) (q : list string) :
  find_duplicates_state E fs folder1 folder2 q
  = foldl (scan_path E fs) (scan_init q) (scan_paths E folder1 ++ scan_paths E folder2).
Proof.
  unfold find_duplicates_state. cbn [foldl].
  by rewrite foldl_app, !scan_folder_paths.
Qed.

Lemma first_with_snoc (h : string) (seen : list (string * string)) (p h' : string) :
  first_with h (seen ++ [(p, h')])
  = match first_with h seen with
    | Some o => Some o
    | None => if decide (h' = h) then Some p else None
    end.
Proof.
  unfold first_with. induction seen as [|[p0 h0] seen IH].
  - cbn. case_bool_decide; by case_decide.
  - cbn [app List.find snd]. case_bool_decide; [done|]. apply IH.
Qed.

Lemma scan_path_ok (st : scan_state) (seen : list (string * string)) (p h : string) :
  index_of seen st →
  audio_fingerprint E fs p = Ok h →
  index_of (seen ++ [(p, h)]) (scan_path E fs st p)
  ∧ duplicates (scan_path E fs st p)
    = duplicates st ++ match first_with h seen with Some o => [(o, p)] | None => [] end
  ∧ processed_count (scan_path E fs st p) = processed_count st + 1
  ∧ scan_msgs (scan_path E fs st p) = scan_msgs st.
Proof.
  intros Hidx Hfp. unfold scan_path. rewrite Hfp.
  pose proof (Hidx h) as Hh.
  destruct (fingerprints st !! h) as [o|] eqn:Hlook; rewrite <- Hh.
  - repeat split; try done. intros h'. cbn [fingerprints].
    rewrite first_with_snoc, <- Hidx.
    destruct (fingerprints st !! h') eqn:Hl'; [done|].
    case_decide; [congruence|done].
  - repeat split; try done; [|cbn [duplicates]; by rewrite app_nil_r].
    intros h'. cbn [fingerprints].
    rewrite first_with_snoc, <- Hidx.
    destruct (decide (h = h')) as [->|Hne].
    + by rewrite lookup_insert_eq, Hlook.
    + rewrite lookup_insert_ne by done. by destruct (fingerprints st !! h').
Qed.

Lemma scan_path_raise (st : scan_state) (p : string) (e : exn) :
  audio_fingerprint E fs p = Raise e →
  scan_path E fs st p
  = {| fingerprints := fingerprints st;
       duplicates := duplicates st;
       processed_count := processed_count st;
       scan_msgs := scan_msgs st ++
         ["Skipped: " +:+ Py.basename p +:+ " (" +:+ Py.slice_to 50 (str_exn e) +:+ "...)"] |}.
Proof. intros H. unfold scan_path. by rewrite H. Qed.

Lemma scan_paths_spec (paths : list string) (st : scan_state) (seen : list (string * string)) :
  index_of seen st →
  let st' := foldl (scan_path E fs) st paths in
  let F := fingerprinted E fs paths in
  index_of (seen ++ F) st'
  ∧ duplicates st' = duplicates st ++ pairs_from seen F
  ∧ processed_count st' = processed_count st + Z.of_nat (length F).
Proof.
  revert st seen. induction paths as [|p paths IH]; intros st seen Hidx.
  - cbn. rewrite !app_nil_r. split; [done|]. split; [done|lia].
  - cbn [foldl fingerprinted omap list_omap].
    destruct (audio_fingerprint E fs p) as [h|e] eqn:Hfp.
    + destruct (scan_path_ok st seen p h Hidx Hfp) as (Hidx' & Hdup & Hcount & _).
      destruct (IH _ _ Hidx') as (IH1 & IH2 & IH3).
      cbn zeta. fold (fingerprinted E fs paths).
      split; [|split].
      * by rewrite <- app_assoc in IH1.
      * rewrite IH2, Hdup. cbn [pairs_from]. by rewrite <- app_assoc.
      * rewrite IH3, Hcount. cbn [length]. lia.
    + rewrite (scan_path_raise st p e Hfp).
      match goal with |- context [foldl _ ?s paths] => set (st1 := s) end.
      destruct (IH st1 seen) as (IH1 & IH2 & IH3); [intros h; apply Hidx|].
      split; [exact IH1|]. split; [exact IH2|exact IH3].
Qed.

Lemma index_of_init (q : list string) : index_of [] (scan_init q).
Proof. intros h. done. Qed.

End scanner.

Section scanner_results.
Context (E : env) (fs : filesystem).

(** Every fingerprinted file either opens an entry of the index or adds a
    pair. *)
Lemma scan_path_balance (st : scan_state) (p : string) :
  processed_count st = Z.of_nat (length (duplicates st) + size (fingerprints st)) →
  processed_count (scan_path E fs st p)
  = Z.of_nat (length (duplicates (scan_path E fs st p))
              + size (fingerprints (scan_path E fs st p))).
Proof.
  intros H. unfold scan_path.
  destruct (audio_fingerprint E fs p) as [h|e]; [|done].
  destruct (fingerprints st !! h) as [o|] eqn:Hlook.
  - cbn [processed_count duplicates fingerprints]. rewrite length_app. cbn [length]. lia.
  - cbn [processed_count duplicates fingerprints].
    rewrite map_size_insert_None by done. lia.
Qed.

Lemma scan_paths_balance (paths : list string) (st : scan_state) :
  processed_count st = Z.of_nat (length (duplicates st) + size (fingerprints st)) →
  let st' := foldl (scan_path E fs) st paths in
  processed_count st' = Z.of_nat (length (duplicates st') + size (fingerprints st')).
Proof.
  revert st. induction paths as [|p paths IH]; intros st H; [done|].
  cbn [foldl]. apply IH. by apply scan_path_balance.
Qed.

(** Where the pairs come from: a file, and the first earlier file with its
    fingerprint. *)
Lemma pairs_from_elem (seen F : list (string * string)) (o p : string) :
  (o, p) ∈ pairs_from seen F
  ↔ ∃ F1 F2 h, F = F1 ++ (p, h) :: F2 ∧ first_with h (seen ++ F1) = Some o.
Proof.
  revert seen. induction F as [|[p0 h0] F IH]; intros seen.
  - cbn. split; [by intros ?%elem_of_nil|].
    intros (F1 & F2 & h & Heq & _). by destruct F1.
  - cbn [pairs_from]. rewrite elem_of_app, IH. split.
    + intros [Hhere|(F1 & F2 & h & -> & Hfirst)].
      * destruct (first_with h0 seen) as [o0|] eqn:Hf; [|by apply elem_of_nil in Hhere].
        apply list_elem_of_singleton in Hhere. injection Hhere as -> ->.
        exists [], F, h0. by rewrite app_nil_r.
      * exists ((p0, h0) :: F1), F2, h. split; [done|].
        by rewrite <- app_assoc in Hfirst.
    + intros (F1 & F2 & h & Heq & Hfirst). destruct F1 as [|x F1].
      * left. cbn in Heq. injection Heq as -> -> ->.
        rewrite app_nil_r in Hfirst. rewrite Hfirst. by apply list_elem_of_singleton.
      * right. cbn in Heq. injection Heq as -> ->.
        exists F1, F2, h. split; [done|]. by rewrite <- app_assoc.
Qed.

(** Two audio files, one under each folder, with one fingerprint. *)
Lemma find_duplicates_two_files (folder1 folder2 p1 p2 h : string) (q : list string) :
  scan_paths E folder1 = [p1] →
  scan_paths E folder2 = [p2] →
  audio_fingerprint E fs p1 = Ok h →
  audio_fingerprint E fs p2 = Ok h →
  find_duplicates E fs folder1 folder2 q = (([(p1, p2)], 2), q).
Proof.
  intros H1 H2 Hfp1 Hfp2. unfold find_duplicates.
  rewrite find_duplicates_state_paths, H1, H2. cbn [app foldl].
  assert (Hfirst : scan_path E fs (scan_init q) p1
                   = {| fingerprints := <[h := p1]> ∅; duplicates := [];
                        processed_count := 1; scan_msgs := q |}).
  { unfold scan_path. rewrite Hfp1. cbn [fingerprints scan_init].
    by rewrite lookup_empty. }
  rewrite Hfirst. unfold scan_path. rewrite Hfp2.
  cbn [fingerprints]. by rewrite lookup_insert_eq.
Qed.

End scanner_results.

(** C3. [find_duplicates] runs one index over the audio files of the first
    folder followed by those of the second. With [F] the files that were
    fingerprinted, in traversal order: the pairs returned are, in that order,
    one pair (first path seen with the fingerprint, this path) for every
    file whose fingerprint was seen before it; the index maps each
    fingerprint to the first path seen with it; every fingerprinted file
    either is the first of its fingerprint or adds exactly one pair; and
    [processed_count] is the length of [F]. Two folders that each hold one
    audio file, of equal content and access, yield exactly one pair, led by
    the file of the folder walked first. *)
Theorem find_duplicates_spec (E : env) (fs : filesystem)
    (folder1 folder2 : string) (q : list string) :
  let F := fingerprinted E fs (scan_paths E folder1 ++ scan_paths E folder2) in
  let st := find_duplicates_state E fs folder1 folder2 q in
  (find_duplicates E fs folder1 folder2 q).1 = (pairs_from [] F, Z.of_nat (length F))
  ∧ (∀ h, fingerprints st !! h = first_with h F)
  ∧ (∀ o p, (o, p) ∈ duplicates st
            ↔ ∃ F1 F2 h, F = F1 ++ (p, h) :: F2 ∧ first_with h F1 = Some o)
  ∧ length F = (length (duplicates st) + size (fingerprints st))%nat
  ∧ (∀ p1 p2 f1 f2,
       scan_paths E folder1 = [p1] → scan_paths E folder2 = [p2] →
       files fs !! p1 = Some f1 → files fs !! p2 = Some f2 →
       file_content f1 = file_content f2 → file_access f1 = file_access f2 →
       (find_duplicates E fs folder1 folder2 q).1 = ([(p1, p2)], 2)).
Proof.
  intros F st.
  destruct (scan_paths_spec E fs (scan_paths E folder1 ++ scan_paths E folder2)
              (scan_init q) [] (index_of_init q)) as (Hidx & Hdup & Hcount).
  rewrite <- find_duplicates_state_paths in Hidx, Hdup, Hcount.
  fold F in Hidx, Hdup, Hcount. fold st in Hidx, Hdup, Hcount.
  cbn [scan_init duplicates processed_count app] in Hdup, Hcount.
  split; [|split; [|split; [|split]]].
  - unfold find_duplicates. fold st. cbn [fst]. by rewrite Hdup, Hcount.
  - exact Hidx.
  - intros o p. rewrite Hdup. apply pairs_from_elem.
  - pose proof (scan_paths_balance E fs (scan_paths E folder1 ++ scan_paths E folder2)
                  (scan_init q) eq_refl) as Hbal.
    rewrite <- find_duplicates_state_paths in Hbal. fold st in Hbal. cbn zeta in Hbal.
    lia.
  - intros p1 p2 f1 f2 H1 H2 Hf1 Hf2 Hcontent Haccess.
    rewrite (find_duplicates_two_files E fs folder1 folder2 p1 p2 (fingerprint_of E f1) q);
      try done.
    + by apply audio_fingerprint_present.
    + rewrite (audio_fingerprint_present E fs p2 f2) by done.
      unfold fingerprint_of. by rewrite Hcontent, Haccess.
Qed.

Lemma find_duplicates_spec_witness :
  (find_duplicates two_folders fs_tracks "music" "copy" []).1
  = ([("music/a.mp3", "copy/b.mp3")], 2).
Proof.
  pose proof (find_duplicates_spec two_folders fs_tracks "music" "copy" [])
    as (_ & _ & _ & _ & Htwo).
  exact (Htwo "music/a.mp3" "copy/b.mp3"
           (new_file (bytes_of "RIFF")) (new_file (bytes_of "RIFF"))
           eq_refl eq_refl eq_refl eq_refl eq_refl eq_refl).
Defined.

(** ** Files that cannot be read *)

(** C10. When a file exists (its size can be obtained) and opening or
    reading it raises, [audio_fingerprint] returns the digest of the decimal
    size alone. Two such files of equal size have equal fingerprints; in a
    scan such a file is counted in [processed_count] and no message is
    queued for it; two such files of equal size, one under each folder, are
    returned as a pair. *)
Theorem unreadable_file_fingerprint (E : env) (fs : filesystem) (p : string) (f : file) :
  files fs !! p = Some f →
  file_access f ≠ Readable →
  audio_fingerprint E fs p
    = Ok (sha256_hexdigest E (Py.encode (Py.str (file_size_of f))))
  ∧ (∀ fs' p' f',
       files fs' !! p' = Some f' → file_access f' ≠ Readable →
       file_size_of f' = file_size_of f →
       audio_fingerprint E fs' p' = audio_fingerprint E fs p)
  ∧ (∀ st, processed_count (scan_path E fs st p) = processed_count st + 1
           ∧ scan_msgs (scan_path E fs st p) = scan_msgs st)
  ∧ (∀ folder1 folder2 p' f' q,
       scan_paths E folder1 = [p] → scan_paths E folder2 = [p'] →
       files fs !! p' = Some f' → file_access f' ≠ Readable →
       file_size_of f' = file_size_of f →
       find_duplicates E fs folder1 folder2 q = (([(p, p')], 2), q)).
Proof.
  intros Hf Hacc.
  pose proof (audio_fingerprint_unreadable E fs p f Hf Hacc) as Hfp.
  unfold size_only_input in Hfp. fold (file_size_of f) in Hfp.
  split; [exact Hfp|]. split; [|split].
  - intros fs' p' f' Hf' Hacc' Hsize.
    rewrite Hfp, (audio_fingerprint_unreadable E fs' p' f') by done.
    unfold size_only_input. fold (file_size_of f'). by rewrite Hsize.
  - intros st. unfold scan_path. rewrite Hfp.
    by destruct (fingerprints st !! _).
  - intros folder1 folder2 p' f' q H1 H2 Hf' Hacc' Hsize.
    apply (find_duplicates_two_files E fs folder1 folder2 p p'
             (sha256_hexdigest E (Py.encode (Py.str (file_size_of f))))); try done.
    rewrite (audio_fingerprint_unreadable E fs p' f') by done.
    unfold size_only_input. fold (file_size_of f'). by rewrite Hsize.
Qed.

Lemma unreadable_file_fingerprint_witness :
  audio_fingerprint two_folders fs_locked "music/a.mp3" = Ok "4"
  ∧ find_duplicates two_folders fs_locked "music" "copy" []
    = (([("music/a.mp3", "copy/b.mp3")], 2), []).
Proof.
  assert (Hacc : file_access {| file_content := bytes_of "AAAA"; file_access := OpenDenied |}
                 ≠ Readable) by discriminate.
  assert (Hacc' : file_access {| file_content := bytes_of "BBBB"; file_access := ReadFails |}
                  ≠ Readable) by discriminate.
  pose proof (unreadable_file_fingerprint two_folders fs_locked "music/a.mp3" _ eq_refl Hacc)
    as (Hfp & _ & _ & Hpair).
  split.
  - exact Hfp.
  - exact (Hpair "music" "copy" "copy/b.mp3" _ [] eq_refl eq_refl eq_refl Hacc' eq_refl).
Defined.

Section skipping.
Context (E : env).

(** A file that cannot be fingerprinted, in the pre-scan of a download. *)
Lemma prescan_file_raise (root f : string) (e : exn) (s : dl_state) :
  is_audio_name f = true →
  audio_fingerprint E (dl_fs s) (Py.path_join root f) = Raise e →
  prescan_file E root f s
  = (Ok tt, with_msg ("Couldn't fingerprint " +:+ f +:+ ": "
                      +:+ Py.slice_to 30 (str_exn e) +:+ "...") s).
Proof.
  intros Haudio Hfp. unfold prescan_file. rewrite Haudio.
  unfold try_except, fingerprint, mbind, M_bind. by rewrite Hfp.
Qed.

End skipping.

(** C2, as the code has it. A file whose size cannot be obtained (it is
    missing) makes [audio_fingerprint] raise the error of the operating
    system, which names the path, and return no digest; the function raises
    in no other case. The scan then queues a message starting with Skipped,
    leaves the index, the pairs and the count as they were and goes on; the
    pre-scan of a download queues a message and goes on. *)
Theorem missing_file_is_skipped (E : env) (fs : filesystem) (p : string) :
  files fs !! p = None →
  audio_fingerprint E fs p = Raise (FileNotFoundError p)
  ∧ (∀ p' e, audio_fingerprint E fs p' = Raise e
             → files fs !! p' = None ∧ e = FileNotFoundError p')
  ∧ (∀ st, scan_path E fs st p
           = {| fingerprints := fingerprints st;
                duplicates := duplicates st;
                processed_count := processed_count st;
                scan_msgs := scan_msgs st ++
                  ["Skipped: " +:+ Py.basename p +:+ " ("
                   +:+ Py.slice_to 50 (str_exn (FileNotFoundError p)) +:+ "...)"] |})
  ∧ (∀ root f s,
       dl_fs s = fs → is_audio_name f = true → Py.path_join root f = p →
       prescan_file E root f s
       = (Ok tt, with_msg ("Couldn't fingerprint " +:+ f +:+ ": "
                           +:+ Py.slice_to 30 (str_exn (FileNotFoundError p)) +:+ "...") s)).
Proof.
  intros Hmissing.
  pose proof (audio_fingerprint_missing E fs p Hmissing) as Hfp.
  split; [exact Hfp|]. split; [|split].
  - intros p' e. apply audio_fingerprint_raise_inv.
  - intros st. by apply scan_path_raise.
  - intros root f s <- Haudio <-. by apply prescan_file_raise.
Qed.

Lemma missing_file_is_skipped_witness :
  audio_fingerprint offline fs_tracks "music/gone.mp3"
  = Raise (FileNotFoundError "music/gone.mp3")
  ∧ scan_msgs (scan_path offline fs_tracks (scan_init []) "music/gone.mp3")
    = ["Skipped: gone.mp3 ([Errno 2] No such file or directory: 'music/gone.m...)"].
Proof.
  pose proof (missing_file_is_skipped offline fs_tracks "music/gone.mp3" eq_refl)
    as (Hfp & _ & Hscan & _).
  split.
  - exact Hfp.
  - rewrite (Hscan (scan_init [])). reflexivity.
Defined.

(** C2, as stated, fails: [locked.mp3] cannot be opened, and
    [audio_fingerprint] returns a digest for it (of its size, 12). *)
Lemma unopenable_file_has_fingerprint :
  open_rb fs_tracks "music/locked.mp3" = Raise (PermissionError "music/locked.mp3")
  ∧ audio_fingerprint offline fs_tracks "music/locked.mp3" = Ok "12".
Proof. split; reflexivity. Qed.

(** ** Strings *)

Lemma chars_unchars (l : list ascii) : Py.chars (Py.unchars l) = l.
Proof. apply String.list_ascii_of_string_of_list_ascii. Qed.

Lemma unchars_chars (s : string) : Py.unchars (Py.chars s) = s.
Proof. apply String.string_of_list_ascii_of_string. Qed.


Lemma prefixb_spec (p l : list ascii) :
  Py.prefixb p l = true ↔ ∃ r, l = p ++ r.
Proof.
  revert l. induction p as [|a p IH]; intros l.
  - cbn. split; [eauto|done].
  - destruct l as [|b l]; cbn.
    + split; [done|]. by intros [r ?].
    + rewrite andb_true_iff, bool_decide_eq_true, IH. split.
      * intros [-> [r ->]]. eauto.
      * intros [r [= -> ->]]. eauto.
Qed.

Lemma endswith_spec (s p : string) :
  Py.endswith s p = true ↔ ∃ pre, Py.chars s = pre ++ Py.chars p.
Proof.
  unfold Py.endswith. rewrite prefixb_spec. split.
  - intros [r Hr]. exists (reverse r).
    apply (inj reverse). by rewrite reverse_app, reverse_involutive.
  - intros [pre Hpre]. exists (reverse pre). by rewrite Hpre, reverse_app.
Qed.


(** ** The regular expression *)







Lemma chars_app (a b : string) : Py.chars (a +:+ b) = Py.chars a ++ Py.chars b.
Proof. unfold Py.chars. induction a as [|c a IH]; [done|]. simpl. f_equal. exact IH. Qed.





(** ** The candidates of a page *)




(** C9 fails on the code, on a page with three links. The loop sets out to
    keep the links that end in an extension, to keep an absolute link and
    to resolve a relative one, and misses each by a slip. The test for an
    absolute link is [href.startswith("http")]: the relative address
    httpdocs/a.mp3 passes it and is left unresolved, which is no URL, and
    the absolute address HTTP://h/a.mp3 fails it and is appended to the
    source URL. The pattern ends in [$], which also matches before a final
    line feed: an address that ends in a line feed after .mp3 is a
    candidate, and the line feed stays in its URL. *)
Lemma extracted_links_differ_from_claimed :
  extract_audio_links "http://e.com/music"
    [("httpdocs/a.mp3", "A"); ("HTTP://h/a.mp3", "B"); ("song.mp3" +:+ LF, "Song")]
  = [("httpdocs/a.mp3", "A");
     ("http://e.com/music/HTTP://h/a.mp3", "B");
     ("http://e.com/music/song.mp3" +:+ LF, "Song")]
  ∧ claimed_audio_links "http://e.com/music"
      [("httpdocs/a.mp3", "A"); ("HTTP://h/a.mp3", "B"); ("song.mp3" +:+ LF, "Song")]
    = [("http://e.com/music/httpdocs/a.mp3", "A"); ("HTTP://h/a.mp3", "B")].
Proof. split; reflexivity. Qed.

(** ** Running the statements of a session *)

Lemma bind_ok {A B} (m : M A) (f : A → M B) (s s' : dl_state) (a : A) :
  m s = (Ok a, s') → (m ≫= f) s = f a s'.
Proof. intros H. unfold mbind, M_bind. by rewrite H. Qed.

Lemma bind_raise {A B} (m : M A) (f : A → M B) (s s' : dl_state) (e : exn) :
  m s = (Raise e, s') → (m ≫= f) s = (Raise e, s').
Proof. intros H. unfold mbind, M_bind. by rewrite H. Qed.

Lemma try_ok {A} (m : M A) (h : exn → M A) (s s' : dl_state) (a : A) :
  m s = (Ok a, s') → try_except m h s = (Ok a, s').
Proof. intros H. unfold try_except. by rewrite H. Qed.

Lemma try_raise {A} (m : M A) (h : exn → M A) (s s' : dl_state) (e : exn) :
  m s = (Raise e, s') → try_except m h s = h e s'.
Proof. intros H. unfold try_except. by rewrite H. Qed.

Lemma put_msg_run (m : string) (s : dl_state) : put_msg m s = (Ok tt, with_msg m s).
Proof. reflexivity. Qed.

Lemma os_path_exists_run (p : string) (s : dl_state) :
  os_path_exists p s = (Ok (path_exists (dl_fs s) p), s).
Proof. reflexivity. Qed.

Lemma http_get_run (E : env) (u : string) (s : dl_state) :
  http_get E u s = (requests_get E u, with_request u s).
Proof. reflexivity. Qed.

Section candidates.
Context (E : env) (download_folder : string) (total : Z).

Lemma process_candidate_unfold (i : Z) (link text : string) (s : dl_state) :
  process_candidate E download_folder total (i, (link, text)) s
  = let filename := dest_filename download_folder link text in
    let s1 := started total i text s in
    if path_exists (dl_fs s) filename
    then (Ok tt, with_msg ("File already exists: " +:+ text) s1)
    else try_except (fetch_candidate E link text filename) (fetch_failed text) s1.
Proof.
  unfold process_candidate. cbn zeta.
  rewrite (bind_ok _ _ s (started total i text s) tt) by reflexivity.
  rewrite (bind_ok _ _ _ (started total i text s)
             (path_exists (dl_fs s) (dest_filename download_folder link text)))
    by reflexivity.
  by destruct (path_exists _ _).
Qed.

End candidates.

(** C8. A candidate whose destination already exists: the iteration queues
    its two messages and does nothing else - no request is made, the file
    system and the index are unchanged, and neither [successful_downloads]
    nor [skipped_duplicates] is incremented. *)
Theorem existing_destination_is_skipped (E : env) (download_folder : string) (total i : Z)
    (link text : string) (s : dl_state) :
  path_exists (dl_fs s) (dest_filename download_folder link text) = true →
  let run := process_candidate E download_folder total (i, (link, text)) s in
  run = (Ok tt, with_msg ("File already exists: " +:+ text) (started total i text s))
  ∧ net_log run.2 = net_log s
  ∧ dl_fs run.2 = dl_fs s
  ∧ existing_fingerprints run.2 = existing_fingerprints s
  ∧ successful_downloads run.2 = successful_downloads s
  ∧ skipped_duplicates run.2 = skipped_duplicates s
  ∧ temp_filename run.2 = temp_filename s.
Proof.
  intros Hexists run. unfold run. rewrite process_candidate_unfold. cbn zeta.
  rewrite Hexists. by repeat split.
Qed.

(** C8 on the shop: the destination [dl/Have.mp3] exists. *)
Lemma existing_destination_is_skipped_witness :
  process_candidate shop "dl" 1 (0, ("http://e.com/f/have.mp3", "Have")) (dl_init fs_shop [])
  = (Ok tt, with_msg "File already exists: Have"
              (with_msg "Processing 1/1: Have..." (dl_init fs_shop []))).
Proof.
  exact (proj1 (existing_destination_is_skipped shop "dl" 1 0 "http://e.com/f/have.mp3" "Have"
                  (dl_init fs_shop []) eq_refl)).
Defined.

Section failures.
Context (E : env).

Lemma nothing_gained_refl (s : dl_state) : nothing_gained s s.
Proof. by repeat split. Qed.

Lemma nothing_gained_trans (s1 s2 s3 : dl_state) :
  nothing_gained s1 s2 → nothing_gained s2 s3 → nothing_gained s1 s3.
Proof.
  intros (H1 & H2 & H3 & H4 & H5) (G1 & G2 & G3 & G4 & G5).
  repeat split; try congruence. by etrans.
Qed.

Lemma nothing_gained_msg (m : string) (s : dl_state) : nothing_gained s (with_msg m s).
Proof. by repeat split. Qed.

Lemma nothing_gained_request (u : string) (s : dl_state) : nothing_gained s (with_request u s).
Proof. by repeat split. Qed.

Lemma nothing_gained_exists (s s' : dl_state) (p : string) :
  nothing_gained s s' → path_exists (dl_fs s) p = false → path_exists (dl_fs s') p = false.
Proof.
  intros (Hfiles & Hdirs & _) Hp. unfold path_exists in *.
  apply orb_false_iff in Hp as [Hf Hd]. apply orb_false_iff. rewrite Hdirs.
  split; [|done]. apply bool_decide_eq_false in Hf. apply bool_decide_eq_false.
  intros [f Hsome]. apply Hf. exists f. by eapply lookup_weaken.
Qed.

(** The handler removes at most the file [temp_filename] names. *)
Lemma fetch_failed_gains (text : string) (e : exn) (s : dl_state) :
  nothing_gained s (fetch_failed text e s).2.
Proof.
  unfold fetch_failed, read_temp_filename, mbind, M_bind.
  destruct (temp_filename s) as [t|]; [|apply nothing_gained_refl].
  rewrite os_path_exists_run.
  destruct (path_exists (dl_fs s) t); [|apply nothing_gained_msg].
  unfold try_except, os_remove.
  destruct (files (dl_fs s) !! t) as [f|] eqn:Hf; cbn [mret M_ret]; [|apply nothing_gained_msg].
  rewrite put_msg_run. cbn [snd]. repeat split. cbn. apply delete_subseteq.
Qed.

Lemma fetch_failed_unbound (text : string) (e : exn) (s : dl_state) :
  temp_filename s = None →
  fetch_failed text e s = (Raise (UnboundLocalError "temp_filename"), s).
Proof.
  intros H. unfold fetch_failed, read_temp_filename, mbind, M_bind. by rewrite H.
Qed.

Lemma size_mismatch_state (r : response) (s : dl_state) : (size_mismatch E r s).2 = s.
Proof.
  unfold size_mismatch. destruct (content_length r) as [cl|]; [|done].
  case_bool_decide; [done|]. unfold int_of, mbind, M_bind.
  by destruct (py_int E cl).
Qed.

Lemma size_mismatch_declared (r : response) (s : dl_state) :
  declared_mismatch E r → size_mismatch E r s = (Ok true, s).
Proof.
  intros (cl & n & Hcl & Hne & Hint & Hdiff). unfold size_mismatch. rewrite Hcl.
  rewrite bool_decide_eq_false_2 by done.
  unfold int_of, mbind, M_bind. rewrite Hint. cbn [mret M_ret].
  destruct (Z.of_nat (length (content r)) =? n) eqn:Heq; [|done].
  apply Z.eqb_eq in Heq. congruence.
Qed.

Lemma size_mismatch_undeclared (r : response) (s : dl_state) :
  content_length r = None → size_mismatch E r s = (Ok false, s).
Proof. intros H. unfold size_mismatch. by rewrite H. Qed.

(** The inner [try] on a response that fails one of the three checks. *)
Lemma fetch_candidate_rejected (link text filename : string) (r : response) (s : dl_state) :
  requests_get E link = Ok r →
  status_code r ≠ 200 ∨ declared_mismatch E r ∨ content r = [] →
  nothing_gained s (try_except (fetch_candidate E link text filename) (fetch_failed text) s).2.
Proof.
  intros Hget Hbad. unfold try_except, fetch_candidate.
  rewrite (bind_ok _ _ s (with_request link s) r) by (by rewrite http_get_run, Hget).
  destruct (status_code r =? 200) eqn:Hstatus; cbn [negb].
  2:{ rewrite put_msg_run. cbn [snd].
      eapply nothing_gained_trans; [apply nothing_gained_request|apply nothing_gained_msg]. }
  pose proof (size_mismatch_state r (with_request link s)) as Hstate.
  unfold mbind at 1, M_bind at 1.
  destruct (size_mismatch E r (with_request link s)) as [[corrupted|e] s2] eqn:Hmis;
    cbn [snd] in Hstate; subst s2.
  - destruct corrupted.
    { rewrite put_msg_run. cbn [snd].
      eapply nothing_gained_trans; [apply nothing_gained_request|apply nothing_gained_msg]. }
    destruct Hbad as [Hbad|[Hbad|Hbad]].
    + apply Z.eqb_eq in Hstatus. done.
    + rewrite (size_mismatch_declared r _ Hbad) in Hmis. done.
    + assert (Hz : (Z.of_nat (length (content r)) =? 0) = true) by (by rewrite Hbad).
      rewrite Hz, put_msg_run. cbn [snd].
      eapply nothing_gained_trans; [apply nothing_gained_request|apply nothing_gained_msg].
  - eapply nothing_gained_trans; [apply nothing_gained_request|apply fetch_failed_gains].
Qed.

End failures.

(** C6. A candidate that is fetched and whose response has a status other
    than 200, or declares a [Content-Length] that differs from the size
    received, or has an empty body: no file is created and nothing is
    counted - [successful_downloads], [skipped_duplicates] and the index
    are unchanged, every file on disk afterwards was there before with the
    same content, so neither the destination nor a new temporary file
    exists. The three checks queue the events Failed, Corrupted and Empty
    file. *)
Theorem rejected_response_leaves_nothing (E : env) (download_folder : string) (total i : Z)
    (link text : string) (r : response) (s : dl_state) :
  let filename := dest_filename download_folder link text in
  path_exists (dl_fs s) filename = false →
  requests_get E link = Ok r →
  status_code r ≠ 200 ∨ declared_mismatch E r ∨ content r = [] →
  let run := process_candidate E download_folder total (i, (link, text)) s in
  nothing_gained s run.2
  ∧ path_exists (dl_fs run.2) filename = false
  ∧ (files (dl_fs s) !! (filename +:+ ".tmp") = None →
     files (dl_fs run.2) !! (filename +:+ ".tmp") = None)
  ∧ (status_code r ≠ 200 →
     run = (Ok tt, with_msg ("Failed: HTTP " +:+ Py.str (status_code r) +:+ " for " +:+ text)
                     (requested total i link text s)))
  ∧ (status_code r = 200 → declared_mismatch E r →
     run = (Ok tt, with_msg ("Corrupted: " +:+ text +:+ " (size mismatch)")
                     (requested total i link text s)))
  ∧ (status_code r = 200 → content_length r = None → content r = [] →
     run = (Ok tt, with_msg ("Empty file: " +:+ text) (requested total i link text s))).
Proof.
  intros filename Hnew Hget Hbad run.
  assert (Hrun : run = try_except (fetch_candidate E link text filename) (fetch_failed text)
                         (started total i text s)).
  { unfold run. rewrite process_candidate_unfold. cbn zeta. fold filename. by rewrite Hnew. }
  assert (Hgain : nothing_gained s run.2).
  { rewrite Hrun. eapply nothing_gained_trans; [apply nothing_gained_msg|].
    by eapply fetch_candidate_rejected. }
  assert (Hfetch : ∀ s1, http_get E link s1 = (Ok r, with_request link s1)).
  { intros s1. by rewrite http_get_run, Hget. }
  split; [exact Hgain|]. split; [by eapply nothing_gained_exists|].
  split; [|split; [|split]].
  - intros Hnone. destruct Hgain as (Hsub & _).
    destruct (files (dl_fs run.2) !! (filename +:+ ".tmp")) as [f|] eqn:Hf; [|done].
    by rewrite (lookup_weaken _ _ _ _ Hf Hsub) in Hnone.
  - intros Hstatus. rewrite Hrun. unfold fetch_candidate.
    apply try_ok. rewrite (bind_ok _ _ _ _ _ (Hfetch _)).
    destruct (status_code r =? 200) eqn:Heq; [by apply Z.eqb_eq in Heq|done].
  - intros Hstatus Hmis. rewrite Hrun. unfold fetch_candidate.
    apply try_ok. rewrite (bind_ok _ _ _ _ _ (Hfetch _)).
    rewrite Hstatus. cbn [Z.eqb Pos.eqb negb].
    by rewrite (bind_ok _ _ _ _ _ (size_mismatch_declared E r _ Hmis)).
  - intros Hstatus Hnone Hempty. rewrite Hrun. unfold fetch_candidate.
    apply try_ok. rewrite (bind_ok _ _ _ _ _ (Hfetch _)).
    rewrite Hstatus. cbn [Z.eqb Pos.eqb negb].
    rewrite (bind_ok _ _ _ _ _ (size_mismatch_undeclared E r _ Hnone)).
    by rewrite Hempty.
Qed.

(** ** The session up to its loop *)

Section session.
Context (E : env).

Lemma prescan_file_run (root f : string) (s : dl_state) :
  ∃ s', prescan_file E root f s = (Ok tt, s')
        ∧ prescan_step s s'
            (fingerprinted E (dl_fs s)
               (map (Py.path_join root) (List.filter is_audio_name [f]))).
Proof.
  unfold prescan_file. cbn [List.filter].
  destruct (is_audio_name f); [|exists s; by repeat split].
  cbn [map fingerprinted omap list_omap].
  unfold try_except, fingerprint, mbind, M_bind.
  destruct (audio_fingerprint E (dl_fs s) (Py.path_join root f)) as [h|e].
  - eexists. split; [reflexivity|]. by repeat split.
  - eexists. split; [reflexivity|]. by repeat split.
Qed.

Lemma fingerprinted_app (fs : filesystem) (l1 l2 : list string) :
  fingerprinted E fs (l1 ++ l2) = fingerprinted E fs l1 ++ fingerprinted E fs l2.
Proof. unfold fingerprinted. apply omap_app. Qed.

Lemma prescan_step_trans (s1 s2 s3 : dl_state) (seen1 seen2 : list (string * string)) :
  prescan_step s1 s2 seen1 → prescan_step s2 s3 seen2 → prescan_step s1 s3 (seen1 ++ seen2).
Proof.
  intros (H1 & H2 & H3 & H4 & H5 & H6) (G1 & G2 & G3 & G4 & G5 & G6).
  repeat split; try congruence.
  rewrite G6, H6. unfold assign_all. by rewrite foldl_app.
Qed.

Lemma prescan_files_run (root : string) (fnames : list string) (s : dl_state) :
  ∃ s', for_each (prescan_file E root) fnames s = (Ok tt, s')
        ∧ prescan_step s s'
            (fingerprinted E (dl_fs s)
               (map (Py.path_join root) (List.filter is_audio_name fnames))).
Proof.
  revert s. induction fnames as [|f fnames IH]; intros s.
  - exists s. by repeat split.
  - destruct (prescan_file_run root f s) as (s1 & Hrun1 & Hstep1).
    destruct (IH s1) as (s2 & Hrun2 & Hstep2).
    exists s2. split.
    + cbn [for_each]. by rewrite (bind_ok _ _ _ _ _ Hrun1).
    + replace (List.filter is_audio_name (f :: fnames))
        with (List.filter is_audio_name [f] ++ List.filter is_audio_name fnames)
        by (cbn [List.filter]; by destruct (is_audio_name f)).
      rewrite map_app, fingerprinted_app.
      eapply prescan_step_trans; [exact Hstep1|].
      destruct Hstep1 as (Hfs & _). by rewrite <- Hfs.
Qed.

Lemma prescan_walk_run (walk : list (string * list string * list string)) (s : dl_state) :
  ∃ s', for_each (prescan_dir E) walk s = (Ok tt, s')
        ∧ prescan_step s s'
            (fingerprinted E (dl_fs s)
               (flat_map (fun entry : string * list string * list string =>
                            let '(root, _, fnames) := entry in
                            map (Py.path_join root) (List.filter is_audio_name fnames))
                         walk)).
Proof.
  revert s. induction walk as [|[[root ds] fnames] walk IH]; intros s.
  - exists s. by repeat split.
  - destruct (prescan_files_run root fnames s) as (s1 & Hrun1 & Hstep1).
    destruct (IH s1) as (s2 & Hrun2 & Hstep2).
    exists s2. split.
    + cbn [for_each]. unfold prescan_dir at 1. by rewrite (bind_ok _ _ _ _ _ Hrun1).
    + cbn [flat_map]. rewrite fingerprinted_app.
      eapply prescan_step_trans; [exact Hstep1|].
      destruct Hstep1 as (Hfs & _). by rewrite <- Hfs.
Qed.

(** The pre-scan never raises, touches neither the disk nor the counters,
    and leaves the index [prescan_index]. *)
Lemma prescan_run (existing_folder : string) (s : dl_state) :
  ∃ s', prescan E existing_folder s = (Ok tt, s')
        ∧ dl_fs s' = dl_fs s
        ∧ net_log s' = net_log s
        ∧ successful_downloads s' = successful_downloads s
        ∧ skipped_duplicates s' = skipped_duplicates s
        ∧ temp_filename s' = temp_filename s
        ∧ existing_fingerprints s' = prescan_index E (dl_fs s) existing_folder.
Proof.
  unfold prescan, prescan_index.
  rewrite (bind_ok _ _ s (with_index ∅ s) tt) by reflexivity.
  case_bool_decide as Hempty.
  { rewrite (bind_ok _ _ _ (with_index ∅ s) false) by reflexivity.
    eexists. split; [reflexivity|]. by repeat split. }
  rewrite (bind_ok _ _ _ (with_index ∅ s) (path_exists (dl_fs s) existing_folder))
    by reflexivity.
  destruct (path_exists (dl_fs s) existing_folder).
  2:{ eexists. split; [reflexivity|]. by repeat split. }
  rewrite (bind_ok _ _ _ _ tt (put_msg_run _ _)).
  destruct (prescan_walk_run (os_walk E existing_folder)
              (with_msg ("Scanning existing files in: " +:+ existing_folder) (with_index ∅ s)))
    as (s1 & Hrun & (H1 & H2 & H3 & H4 & H5 & H6)).
  rewrite (bind_ok _ _ _ _ _ Hrun).
  rewrite (bind_ok _ _ s1 s1 (existing_fingerprints s1)) by reflexivity.
  eexists. split; [apply put_msg_run|].
  repeat split; try done.
Qed.

Lemma os_makedirs_run (folder : string) (s : dl_state) :
  folder ≠ "" → files (dl_fs s) !! folder = None →
  os_makedirs folder s = (Ok tt, with_fs (made folder (dl_fs s)) s).
Proof.
  intros Hne Hfile. unfold os_makedirs.
  rewrite bool_decide_eq_false_2 by done.
  rewrite bool_decide_eq_false_2; [done|]. rewrite Hfile. by intros [? ?].
Qed.

(** The function returns a triple whatever happens inside: the outer
    handler raises nothing. *)
Lemma download_audio_files_returns (url download_folder existing_folder : string)
    (s : dl_state) :
  ∃ counts s',
    download_audio_files E url download_folder existing_folder s = (Ok counts, s').
Proof.
  unfold download_audio_files, try_except.
  destruct (download_body E url download_folder existing_folder s) as [[counts|e] s'];
    eauto.
Qed.

(** A session whose folder can be made and whose page answers: the state
    at the start of the loop, and the result in terms of the loop. *)
Lemma run_download_loop (fs : filesystem) (q : list string)
    (url download_folder existing_folder : string) (page : response) :
  download_folder ≠ "" → files fs !! download_folder = None →
  requests_get E url = Ok page →
  let links := extract_audio_links url (soup_anchors E (text page)) in
  let total := Z.of_nat (length links) in
  ∃ s, at_loop_start (made download_folder fs)
         (prescan_index E (made download_folder fs) existing_folder) url s
       ∧ run_download E fs q url download_folder existing_folder
         = finish total (for_each (process_candidate E download_folder total)
                           (enumerate links) s).
Proof.
  intros Hne Hfile Hpage links total.
  unfold run_download, download_audio_files, try_except, download_body.
  rewrite (bind_ok _ _ _ _ tt (os_makedirs_run download_folder (dl_init fs q) Hne Hfile)).
  rewrite (bind_ok _ _ _ _ tt (put_msg_run _ _)).
  match goal with |- context [prescan E existing_folder ≫= _] =>
    match goal with |- context [(_ ≫= _) ?s0] => destruct (prescan_run existing_folder s0)
      as (s3 & Hpre & Hfs & Hnet & Hok & Hskip & Htemp & Hidx) end end.
  rewrite (bind_ok _ _ _ _ tt Hpre).
  rewrite (bind_ok _ _ _ _ tt (put_msg_run _ _)).
  rewrite (bind_ok _ _ _ _ page) by (by rewrite http_get_run, Hpage).
  cbn zeta. fold links. fold total.
  rewrite (bind_ok _ _ _ _ tt (put_msg_run _ _)).
  rewrite (bind_ok _ _ _ _ tt) by reflexivity.
  rewrite (bind_ok _ _ _ _ tt) by reflexivity.
  match goal with |- context [(for_each _ _ ≫= _) ?s8] => exists s8 end.
  split.
  - repeat split; cbn; try done. by rewrite Hnet.
  - unfold mbind at 1, M_bind at 1.
    destruct (for_each _ _ _) as [[[]|e] s9]; reflexivity.
Qed.

End session.

Section abort.
Context (E : env) (download_folder : string) (total : Z).

(** The request of a candidate raises before [temp_filename] was ever
    assigned: the handler raises in its turn. *)
Lemma process_candidate_fetch_raises (i : Z) (link text : string) (e : exn) (s : dl_state) :
  path_exists (dl_fs s) (dest_filename download_folder link text) = false →
  temp_filename s = None →
  requests_get E link = Raise e →
  process_candidate E download_folder total (i, (link, text)) s
  = (Raise (UnboundLocalError "temp_filename"), requested total i link text s).
Proof.
  intros Hnew Htemp Hget. rewrite process_candidate_unfold. cbn zeta. rewrite Hnew.
  unfold fetch_candidate.
  rewrite (try_raise _ _ _ (requested total i link text s) e).
  - by apply fetch_failed_unbound.
  - apply bind_raise. by rewrite http_get_run, Hget.
Qed.

(** The same once [temp_filename] is bound and names no file: the handler
    queues its event and the loop goes on. *)
Lemma process_candidate_fetch_raises_bound (i : Z) (link text temp : string) (e : exn)
    (s : dl_state) :
  path_exists (dl_fs s) (dest_filename download_folder link text) = false →
  temp_filename s = Some temp →
  path_exists (dl_fs s) temp = false →
  requests_get E link = Raise e →
  process_candidate E download_folder total (i, (link, text)) s
  = (Ok tt, with_msg ("Error downloading " +:+ text +:+ ": "
                      +:+ Py.slice_to 50 (str_exn e) +:+ "...")
              (requested total i link text s)).
Proof.
  intros Hnew Htemp Hgone Hget. rewrite process_candidate_unfold. cbn zeta. rewrite Hnew.
  unfold fetch_candidate.
  rewrite (try_raise _ _ _ (requested total i link text s) e)
    by (apply bind_raise; by rewrite http_get_run, Hget).
  unfold fetch_failed, read_temp_filename, mbind, M_bind.
  change (temp_filename (requested total i link text s)) with (temp_filename s).
  rewrite Htemp, os_path_exists_run.
  change (dl_fs (requested total i link text s)) with (dl_fs s).
  by rewrite Hgone.
Qed.

End abort.

(** C5 fails on the code. When the request of the first candidate raises,
    the handler reads [temp_filename] before any assignment, the error
    leaves the loop, and the session returns three zeros after a Download
    error event: the candidates that follow are never requested. *)
Theorem first_fetch_error_ends_session (E : env) (fs : filesystem) (q : list string)
    (url download_folder existing_folder : string) (page : response)
    (link label : string) (rest : list (string * string)) (e : exn) :
  download_folder ≠ "" →
  files fs !! download_folder = None →
  requests_get E url = Ok page →
  extract_audio_links url (soup_anchors E (text page)) = (link, label) :: rest →
  path_exists (made download_folder fs) (dest_filename download_folder link label) = false →
  requests_get E link = Raise e →
  let run := run_download E fs q url download_folder existing_folder in
  run.1 = Ok (0, 0, 0)
  ∧ net_log run.2 = [url; link]
  ∧ last (msg_queue run.2)
    = Some ("Download error: " +:+ str_exn (UnboundLocalError "temp_filename")).
Proof.
  intros Hne Hfile Hpage Hlinks Hnew Hget run.
  destruct (run_download_loop E fs q url download_folder existing_folder page Hne Hfile Hpage)
    as (s & (Hfs & Hnet & _ & _ & _ & Htemp) & Hrun).
  unfold run. rewrite Hrun, Hlinks. unfold enumerate. cbn [imap for_each].
  rewrite (bind_raise _ _ _ _ _
             (process_candidate_fetch_raises E download_folder _ _ link label e s
                ltac:(by rewrite Hfs) Htemp Hget)).
  cbn [finish fst snd]. split; [done|]. split.
  - cbn. by rewrite Hnet.
  - cbn [msg_queue with_msg]. by rewrite last_snoc.
Qed.

Lemma first_fetch_error_ends_session_witness :
  (run_download shop fs_shop [] "http://e.com/bad" "dl" "").1 = Ok (0, 0, 0)
  ∧ net_log (run_download shop fs_shop [] "http://e.com/bad" "dl" "").2
    = ["http://e.com/bad"; "http://e.com/f/down.mp3"].
Proof.
  assert (Hne : "dl" ≠ "") by discriminate.
  pose proof (first_fetch_error_ends_session shop fs_shop [] "http://e.com/bad" "dl" ""
                (page_of "bad") "http://e.com/f/down.mp3" "Down"
                [("http://e.com/f/new.mp3", "New")]
                (RequestException "connection refused")
                Hne eq_refl eq_refl eq_refl eq_refl eq_refl) as (Hcounts & Hnet & _).
  split; [exact Hcounts|exact Hnet].
Defined.

(** ** A candidate that passes the checks *)

Section commit.
Context (E : env).

Lemma write_file_run (p : string) (data : list byte) (s : dl_state) :
  p ∉ dirs (dl_fs s) →
  write_file p data s = (Ok tt, with_fs (fs_written p data (dl_fs s)) s).
Proof. intros H. unfold write_file. by rewrite bool_decide_eq_false_2. Qed.

Lemma os_remove_run (p : string) (f : file) (s : dl_state) :
  files (dl_fs s) !! p = Some f →
  os_remove p s
  = (Ok tt, with_fs {| files := delete p (files (dl_fs s)); dirs := dirs (dl_fs s) |} s).
Proof. intros H. unfold os_remove. by rewrite H. Qed.

Lemma os_rename_run (src dst : string) (f : file) (s : dl_state) :
  files (dl_fs s) !! src = Some f → dst ∉ dirs (dl_fs s) →
  os_rename src dst s
  = (Ok tt, with_fs {| files := <[dst := f]> (delete src (files (dl_fs s)));
                       dirs := dirs (dl_fs s) |} s).
Proof. intros H Hd. unfold os_rename. rewrite H. by rewrite bool_decide_eq_false_2. Qed.

Lemma fingerprint_run (p : string) (f : file) (s : dl_state) :
  files (dl_fs s) !! p = Some f → fingerprint E p s = (Ok (fingerprint_of E f), s).
Proof. intros H. unfold fingerprint. by rewrite (audio_fingerprint_present E _ p f). Qed.

Lemma fingerprint_of_new_file (c : list byte) :
  fingerprint_of E (new_file c) = fingerprint_of_bytes E c.
Proof. reflexivity. Qed.

Lemma size_mismatch_agrees (r : response) (s : dl_state) :
  length_agrees E r → size_mismatch E r s = (Ok false, s).
Proof.
  unfold length_agrees, size_mismatch. destruct (content_length r) as [cl|]; [|done].
  intros [->|Hint]; [done|]. case_bool_decide; [done|].
  unfold int_of, mbind, M_bind. rewrite Hint. cbn [mret M_ret]. by rewrite Z.eqb_refl.
Qed.

Lemma path_exists_false (fs : filesystem) (p : string) :
  path_exists fs p = false → files fs !! p = None ∧ p ∉ dirs fs.
Proof.
  unfold path_exists. intros [Hf Hd]%orb_false_iff.
  apply bool_decide_eq_false in Hf, Hd. split; [|done].
  destruct (files fs !! p); [|done]. exfalso. apply Hf. eauto.
Qed.

(** The inner [try] up to the duplicate check. *)
Lemma fetch_candidate_good (link text filename : string) (r : response) (c : list byte)
    (s : dl_state) :
  requests_get E link = Ok r →
  good_response E r c →
  filename +:+ ".tmp" ∉ dirs (dl_fs s) →
  fetch_candidate E link text filename s
  = (check_duplicate E text (filename +:+ ".tmp") ≫= fun duplicate : bool =>
       if duplicate then mret tt
       else keep_file E text (filename +:+ ".tmp") filename r)
      (with_fs (fs_written (filename +:+ ".tmp") c (dl_fs s))
         (with_temp (filename +:+ ".tmp") (with_request link s))).
Proof.
  intros Hget (Hstatus & Hagree & Hcontent & Hnonempty) Htemp. unfold fetch_candidate.
  rewrite (bind_ok _ _ _ (with_request link s) r) by (by rewrite http_get_run, Hget).
  rewrite Hstatus. cbn [Z.eqb Pos.eqb negb].
  rewrite (bind_ok _ _ _ _ _ (size_mismatch_agrees r _ Hagree)).
  rewrite Hcontent.
  destruct (Z.of_nat (length c) =? 0) eqn:Hlen.
  { apply Z.eqb_eq in Hlen. destruct c; [done|]. cbn [length] in Hlen. lia. }
  cbn zeta.
  rewrite (bind_ok _ _ _ (with_temp (filename +:+ ".tmp") (with_request link s)) tt)
    by reflexivity.
  by rewrite (bind_ok _ _ _ _ tt
                (write_file_run (filename +:+ ".tmp") c
                   (with_temp (filename +:+ ".tmp") (with_request link s)) Htemp)).
Qed.

(** The duplicate check finds the fingerprint in the index. *)
Lemma check_duplicate_found (text temp original : string) (c : list byte) (s : dl_state) :
  files (dl_fs s) !! temp = Some (new_file c) →
  existing_fingerprints s !! fingerprint_of_bytes E c = Some original →
  check_duplicate E text temp s
  = (Ok true,
     with_skipped (skipped_duplicates s + 1)
       (with_msg ("Duplicate found: " +:+ text +:+ " matches " +:+ Py.basename original)
          (with_fs {| files := delete temp (files (dl_fs s)); dirs := dirs (dl_fs s) |} s))).
Proof.
  intros Hfile Hidx. unfold check_duplicate.
  rewrite (bind_ok _ _ s s (existing_fingerprints s)) by reflexivity.
  rewrite bool_decide_eq_false_2 by (intros Hempty; by rewrite Hempty in Hidx).
  apply try_ok.
  rewrite (bind_ok _ _ _ _ _ (fingerprint_run temp _ s Hfile)).
  rewrite fingerprint_of_new_file, Hidx.
  rewrite (bind_ok _ _ _ _ tt (os_remove_run temp _ s Hfile)).
  rewrite (bind_ok _ _ _ _ tt (put_msg_run _ _)).
  reflexivity.
Qed.

(** The duplicate check finds nothing. *)
Lemma check_duplicate_fresh (text temp : string) (c : list byte) (s : dl_state) :
  files (dl_fs s) !! temp = Some (new_file c) →
  existing_fingerprints s !! fingerprint_of_bytes E c = None →
  check_duplicate E text temp s = (Ok false, s).
Proof.
  intros Hfile Hidx. unfold check_duplicate.
  rewrite (bind_ok _ _ s s (existing_fingerprints s)) by reflexivity.
  case_bool_decide; [done|].
  apply try_ok.
  rewrite (bind_ok _ _ _ _ _ (fingerprint_run temp _ s Hfile)).
  by rewrite fingerprint_of_new_file, Hidx.
Qed.

(** The file is renamed, counted, and its fingerprint assigned. *)
Lemma keep_file_run (text temp filename : string) (r : response) (c : list byte)
    (s : dl_state) :
  files (dl_fs s) !! temp = Some (new_file c) →
  filename ∉ dirs (dl_fs s) →
  content r = c →
  keep_file E text temp filename r s
  = (Ok tt,
     with_index (<[fingerprint_of_bytes E c := filename]> (existing_fingerprints s))
       (with_msg ("Downloaded: " +:+ text +:+ " (" +:+ Py.str (Z.of_nat (length c))
                  +:+ " bytes)")
          (with_successful (successful_downloads s + 1)
             (with_fs {| files := <[filename := new_file c]> (delete temp (files (dl_fs s)));
                         dirs := dirs (dl_fs s) |} s)))).
Proof.
  intros Hfile Hdir Hcontent. unfold keep_file.
  rewrite (bind_ok _ _ _ _ tt (os_rename_run temp filename _ s Hfile Hdir)).
  erewrite bind_ok by reflexivity.
  erewrite bind_ok by reflexivity.
  rewrite (bind_ok _ _ _ _ tt (put_msg_run _ _)).
  apply try_ok.
  erewrite bind_ok; [|apply (fingerprint_run filename (new_file c)); cbn; apply lookup_insert_eq].
  rewrite Hcontent. reflexivity.
Qed.

(** A candidate whose bytes are in the index. *)
Lemma process_candidate_duplicate (download_folder : string) (total i : Z)
    (link text original : string) (r : response) (c : list byte) (s : dl_state) :
  let filename := dest_filename download_folder link text in
  free_destination (dl_fs s) filename →
  requests_get E link = Ok r →
  good_response E r c →
  existing_fingerprints s !! fingerprint_of_bytes E c = Some original →
  process_candidate E download_folder total (i, (link, text)) s
  = (Ok tt, after_duplicate total i link text filename original c s).
Proof.
  intros filename [Hnew Htemp] Hget Hgood Hidx.
  rewrite process_candidate_unfold. cbn zeta. fold filename. rewrite Hnew.
  apply try_ok. rewrite (fetch_candidate_good link text filename r c (started total i text s)
                        Hget Hgood Htemp).
  erewrite bind_ok;
    [|apply (check_duplicate_found text _ original c); [apply lookup_insert_eq|exact Hidx]].
  reflexivity.
Qed.

(** A candidate whose bytes are not in the index. *)
Lemma process_candidate_kept (download_folder : string) (total i : Z)
    (link text : string) (r : response) (c : list byte) (s : dl_state) :
  let filename := dest_filename download_folder link text in
  free_destination (dl_fs s) filename →
  requests_get E link = Ok r →
  good_response E r c →
  existing_fingerprints s !! fingerprint_of_bytes E c = None →
  process_candidate E download_folder total (i, (link, text)) s
  = (Ok tt, after_kept E total i link text filename c s).
Proof.
  intros filename [Hnew Htemp] Hget Hgood Hidx.
  rewrite process_candidate_unfold. cbn zeta. fold filename. rewrite Hnew.
  apply try_ok. rewrite (fetch_candidate_good link text filename r c (started total i text s)
                        Hget Hgood Htemp).
  erewrite bind_ok;
    [|apply (check_duplicate_fresh text _ c); [apply lookup_insert_eq|exact Hidx]].
  rewrite (keep_file_run text (filename +:+ ".tmp") filename r c).
  - reflexivity.
  - apply lookup_insert_eq.
  - by apply path_exists_false in Hnew as [_ ?].
  - by destruct Hgood as (_ & _ & ? & _).
Qed.

End commit.

(** ** The index of a download session *)

Lemma last_with_snoc (h : string) (seen : list (string * string)) (p h' : string) :
  last_with h (seen ++ [(p, h')])
  = if decide (h' = h) then Some p else last_with h seen.
Proof.
  unfold last_with. rewrite reverse_snoc. unfold first_with. cbn [List.find snd].
  case_bool_decide; by case_decide.
Qed.

(** Assignment keeps, for each fingerprint, the last path seen with it. *)
Lemma assign_all_lookup (seen : list (string * string)) (idx : gmap string string) (h : string) :
  assign_all seen idx !! h
  = match last_with h seen with Some p => Some p | None => idx !! h end.
Proof.
  induction seen as [|[p h'] seen IH] using rev_ind; [done|].
  unfold assign_all. rewrite foldl_app. cbn [foldl fst snd]. fold (assign_all seen idx).
  rewrite last_with_snoc. case_decide as Hh.
  - subst h'. apply lookup_insert_eq.
  - rewrite lookup_insert_ne by done. exact IH.
Qed.

Lemma prescan_index_lookup (E : env) (fs : filesystem) (existing_folder h : string) :
  existing_folder ≠ "" → path_exists fs existing_folder = true →
  prescan_index E fs existing_folder !! h
  = last_with h (fingerprinted E fs (scan_paths E existing_folder)).
Proof.
  intros Hne Hexists. unfold prescan_index.
  rewrite bool_decide_eq_false_2 by done. rewrite Hexists, assign_all_lookup.
  by destruct (last_with _ _).
Qed.

Section sessions.
Context (E : env) (fs : filesystem) (q : list string)
        (url download_folder existing_folder : string) (page : response).
Context (Hfolder : download_folder ≠ "") (Hnofile : files fs !! download_folder = None)
        (Hpage : requests_get E url = Ok page).

(** Two links to the same bytes, not yet in the index: the first is kept,
    the second is a duplicate of the first. *)
Lemma session_two_identical_links (l1 t1 l2 t2 : string) (r1 r2 : response) (c : list byte) :
  extract_audio_links url (soup_anchors E (text page)) = [(l1, t1); (l2, t2)] →
  requests_get E l1 = Ok r1 → requests_get E l2 = Ok r2 →
  good_response E r1 c → good_response E r2 c →
  dest_filename download_folder l1 t1 ≠ dest_filename download_folder l2 t2 →
  free_destination (made download_folder fs) (dest_filename download_folder l1 t1) →
  free_destination (made download_folder fs) (dest_filename download_folder l2 t2) →
  prescan_index E (made download_folder fs) existing_folder !! fingerprint_of_bytes E c = None →
  let run := run_download E fs q url download_folder existing_folder in
  run.1 = Ok (1, 2, 1)
  ∧ existing_fingerprints run.2 !! fingerprint_of_bytes E c
    = Some (dest_filename download_folder l1 t1)
  ∧ "Duplicate found: " +:+ t2 +:+ " matches "
    +:+ Py.basename (dest_filename download_folder l1 t1) ∈ msg_queue run.2.
Proof.
  intros Hlinks Hget1 Hget2 Hgood1 Hgood2 Hdiff Hfree1 Hfree2 Hidx run.
  destruct (run_download_loop E fs q url download_folder existing_folder page
              Hfolder Hnofile Hpage)
    as (s & (Hfs & Hnet & Hindex & Hok & Hskip & Htemp) & Hrun).
  unfold run. rewrite Hrun, Hlinks. unfold enumerate. cbn [imap for_each length].
  rewrite <- Hfs in Hfree1, Hfree2. rewrite <- Hindex in Hidx.
  erewrite bind_ok; [|by apply (process_candidate_kept E download_folder _ _ l1 t1 r1 c s)].
  set (fn1 := dest_filename download_folder l1 t1) in *.
  set (fn2 := dest_filename download_folder l2 t2) in *.
  set (s1 := after_kept E _ _ l1 t1 fn1 c s).
  assert (Hfree2' : free_destination (dl_fs s1) fn2).
  { destruct Hfree2 as [Hnew2 Htemp2]. split; [|exact Htemp2].
    apply path_exists_false in Hnew2 as [Hnone2 Hdir2].
    unfold path_exists. apply orb_false_iff. split.
    - apply bool_decide_eq_false. intros [f Hf]. cbn in Hf.
      rewrite lookup_insert_ne in Hf by done.
      apply lookup_delete_Some in Hf as [Hne Hf].
      rewrite lookup_insert_ne in Hf by done. congruence.
    - by apply bool_decide_eq_false. }
  assert (Hidx1 : existing_fingerprints s1 !! fingerprint_of_bytes E c = Some fn1)
    by apply lookup_insert_eq.
  erewrite bind_ok;
    [|by apply (process_candidate_duplicate E download_folder _ _ l2 t2 fn1 r2 c s1)].
  cbn [finish fst snd mret M_ret].
  split; [|split].
  - cbn. by rewrite Hok, Hskip.
  - exact Hidx1.
  - cbn. set_solver.
Qed.

(** One link to bytes that the pre-scan found in the existing folder. *)
Lemma session_existing_duplicate (l1 t1 original : string) (r1 : response) (c : list byte) :
  extract_audio_links url (soup_anchors E (text page)) = [(l1, t1)] →
  requests_get E l1 = Ok r1 →
  good_response E r1 c →
  free_destination (made download_folder fs) (dest_filename download_folder l1 t1) →
  prescan_index E (made download_folder fs) existing_folder !! fingerprint_of_bytes E c
    = Some original →
  let run := run_download E fs q url download_folder existing_folder in
  run.1 = Ok (0, 1, 1)
  ∧ files (dl_fs run.2) !! dest_filename download_folder l1 t1 = None
  ∧ "Duplicate found: " +:+ t1 +:+ " matches " +:+ Py.basename original ∈ msg_queue run.2.
Proof.
  intros Hlinks Hget1 Hgood1 Hfree1 Hidx run.
  destruct (run_download_loop E fs q url download_folder existing_folder page
              Hfolder Hnofile Hpage)
    as (s & (Hfs & Hnet & Hindex & Hok & Hskip & Htemp) & Hrun).
  unfold run. rewrite Hrun, Hlinks. unfold enumerate. cbn [imap for_each length].
  rewrite <- Hfs in Hfree1. rewrite <- Hindex in Hidx.
  erewrite bind_ok;
    [|by apply (process_candidate_duplicate E download_folder _ _ l1 t1 original r1 c s)].
  cbn [finish fst snd mret M_ret].
  split; [|split].
  - cbn. by rewrite Hok, Hskip.
  - destruct Hfree1 as [[Hnone _]%path_exists_false _]. cbn.
    apply lookup_delete_None. destruct (decide (dest_filename download_folder l1 t1 +:+ ".tmp"
                                       = dest_filename download_folder l1 t1)); [by left|].
    right. by rewrite lookup_insert_ne.
  - cbn. set_solver.
Qed.

End sessions.

(** C4, as the code has it. The pre-scan assigns every fingerprinted audio
    file of the existing folder to the index in turn, so that the index then
    maps each fingerprint to the last path seen with it. A candidate that
    passes the checks and whose bytes have a fingerprint absent from the
    index is renamed to its destination, counted as downloaded, and its
    fingerprint is then inserted for the destination: no entry is replaced
    during the loop. A candidate whose bytes have a fingerprint present in
    the index is removed from its temporary path and counted as a skipped
    duplicate, the base name of the matched path is reported and the index
    stays as it was. Hence two links to the same bytes give one download
    and one skipped duplicate reported against the first, and a candidate
    that matches a file of the existing folder is skipped. *)
Theorem download_index_spec (E : env) :
  (∀ existing_folder s,
     ∃ s', prescan E existing_folder s = (Ok tt, s')
           ∧ dl_fs s' = dl_fs s
           ∧ existing_fingerprints s' = prescan_index E (dl_fs s) existing_folder)
  ∧ (∀ fs existing_folder h,
       existing_folder ≠ "" → path_exists fs existing_folder = true →
       prescan_index E fs existing_folder !! h
       = last_with h (fingerprinted E fs (scan_paths E existing_folder)))
  ∧ (∀ download_folder total i link label r c s,
       let filename := dest_filename download_folder link label in
       free_destination (dl_fs s) filename →
       requests_get E link = Ok r → good_response E r c →
       existing_fingerprints s !! fingerprint_of_bytes E c = None →
       let s' := after_kept E total i link label filename c s in
       process_candidate E download_folder total (i, (link, label)) s = (Ok tt, s')
       ∧ existing_fingerprints s'
         = <[fingerprint_of_bytes E c := filename]> (existing_fingerprints s)
       ∧ files (dl_fs s') !! filename = Some (new_file c)
       ∧ successful_downloads s' = successful_downloads s + 1
       ∧ skipped_duplicates s' = skipped_duplicates s)
  ∧ (∀ download_folder total i link label original r c s,
       let filename := dest_filename download_folder link label in
       free_destination (dl_fs s) filename →
       requests_get E link = Ok r → good_response E r c →
       existing_fingerprints s !! fingerprint_of_bytes E c = Some original →
       let s' := after_duplicate total i link label filename original c s in
       process_candidate E download_folder total (i, (link, label)) s = (Ok tt, s')
       ∧ existing_fingerprints s' = existing_fingerprints s
       ∧ files (dl_fs s') !! (filename +:+ ".tmp") = None
       ∧ successful_downloads s' = successful_downloads s
       ∧ skipped_duplicates s' = skipped_duplicates s + 1
       ∧ last (msg_queue s')
         = Some ("Duplicate found: " +:+ label +:+ " matches " +:+ Py.basename original))
  ∧ (∀ fs q url download_folder existing_folder page l1 t1 l2 t2 r1 r2 c,
       download_folder ≠ "" → files fs !! download_folder = None →
       requests_get E url = Ok page →
       extract_audio_links url (soup_anchors E (text page)) = [(l1, t1); (l2, t2)] →
       requests_get E l1 = Ok r1 → requests_get E l2 = Ok r2 →
       good_response E r1 c → good_response E r2 c →
       dest_filename download_folder l1 t1 ≠ dest_filename download_folder l2 t2 →
       free_destination (made download_folder fs) (dest_filename download_folder l1 t1) →
       free_destination (made download_folder fs) (dest_filename download_folder l2 t2) →
       prescan_index E (made download_folder fs) existing_folder
         !! fingerprint_of_bytes E c = None →
       let run := run_download E fs q url download_folder existing_folder in
       run.1 = Ok (1, 2, 1)
       ∧ existing_fingerprints run.2 !! fingerprint_of_bytes E c
         = Some (dest_filename download_folder l1 t1)
       ∧ "Duplicate found: " +:+ t2 +:+ " matches "
         +:+ Py.basename (dest_filename download_folder l1 t1) ∈ msg_queue run.2)
  ∧ (∀ fs q url download_folder existing_folder page l1 t1 original r1 c,
       download_folder ≠ "" → files fs !! download_folder = None →
       requests_get E url = Ok page →
       extract_audio_links url (soup_anchors E (text page)) = [(l1, t1)] →
       requests_get E l1 = Ok r1 → good_response E r1 c →
       free_destination (made download_folder fs) (dest_filename download_folder l1 t1) →
       prescan_index E (made download_folder fs) existing_folder
         !! fingerprint_of_bytes E c = Some original →
       let run := run_download E fs q url download_folder existing_folder in
       run.1 = Ok (0, 1, 1)
       ∧ files (dl_fs run.2) !! dest_filename download_folder l1 t1 = None
       ∧ "Duplicate found: " +:+ t1 +:+ " matches " +:+ Py.basename original
         ∈ msg_queue run.2).
Proof.
  split; [|split; [|split; [|split; [|split]]]].
  - intros existing_folder s.
    destruct (prescan_run E existing_folder s) as (s' & Hrun & Hfs & _ & _ & _ & _ & Hidx).
    by exists s'.
  - intros fs existing_folder h. apply prescan_index_lookup.
  - intros download_folder total i link label r c s filename Hfree Hget Hgood Hidx s'.
    split; [by apply (process_candidate_kept E download_folder total i link label r c s)|].
    split; [done|]. split; [apply lookup_insert_eq|done].
  - intros download_folder total i link label original r c s filename Hfree Hget Hgood Hidx s'.
    split; [by apply (process_candidate_duplicate E download_folder total i link label
                        original r c s)|].
    split; [done|]. split; [apply lookup_delete_eq|].
    split; [done|]. split; [done|]. cbn. by rewrite last_snoc.
  - intros fs q url download_folder existing_folder page l1 t1 l2 t2 r1 r2 c.
    intros. by eapply session_two_identical_links.
  - intros fs q url download_folder existing_folder page l1 t1 original r1 c.
    intros. by eapply session_existing_duplicate.
Qed.

Lemma good_response_served (E : env) (body : string) :
  bytes_of body ≠ [] → good_response E (served body) (bytes_of body).
Proof. intros H. by repeat split. Qed.

Lemma free_destination_dl (name : string) :
  path_exists (made "dl" fs_shop) name = false →
  bool_decide (name +:+ ".tmp" ∈ dirs (made "dl" fs_shop)) = false →
  free_destination (made "dl" fs_shop) name.
Proof. intros H1 H2. split; [done|]. by apply bool_decide_eq_false in H2. Qed.

(** C4 on the shop: the two links of page [p], and the link of page [old]
    against the library. *)
Lemma download_index_spec_witness :
  (run_download shop fs_shop [] "http://e.com/p" "dl" "").1 = Ok (1, 2, 1)
  ∧ "Duplicate found: Again matches New.mp3"
    ∈ msg_queue (run_download shop fs_shop [] "http://e.com/p" "dl" "").2
  ∧ (run_download shop fs_shop [] "http://e.com/old" "dl" "library").1 = Ok (0, 1, 1).
Proof.
  pose proof (download_index_spec shop) as (_ & _ & _ & _ & Htwo & Hold).
  assert (Hne : "dl" ≠ "") by discriminate.
  assert (Hhello : bytes_of "hello" ≠ []) by discriminate.
  assert (HAAA : bytes_of "AAA" ≠ []) by discriminate.
  assert (Hdiff : dest_filename "dl" "http://e.com/f/new.mp3" "New"
                  ≠ dest_filename "dl" "http://e.com/f/again.mp3" "Again") by discriminate.
  specialize (Htwo fs_shop [] "http://e.com/p" "dl" "" (page_of "p")
                "http://e.com/f/new.mp3" "New" "http://e.com/f/again.mp3" "Again"
                (served "hello") (served "hello") (bytes_of "hello")
                Hne eq_refl eq_refl eq_refl eq_refl eq_refl
                (good_response_served shop "hello" Hhello)
                (good_response_served shop "hello" Hhello)
                Hdiff
                (free_destination_dl "dl/New.mp3" eq_refl eq_refl)
                (free_destination_dl "dl/Again.mp3" eq_refl eq_refl)
                eq_refl).
  specialize (Hold fs_shop [] "http://e.com/old" "dl" "library" (page_of "old")
                "http://e.com/f/old.mp3" "Old" "library/two.mp3"
                (served "AAA") (bytes_of "AAA")
                Hne eq_refl eq_refl eq_refl eq_refl
                (good_response_served shop "AAA" HAAA)
                (free_destination_dl "dl/Old.mp3" eq_refl eq_refl)
                eq_refl).
  destruct Htwo as (Hcounts & _ & Hmsg). destruct Hold as (Hcounts' & _).
  split; [exact Hcounts|]. split; [exact Hmsg|exact Hcounts'].
Defined.

(** C4, as stated, fails twice. The library holds [one.mp3] and [two.mp3]
    with the same bytes, in that order of traversal: the first path seen
    with their fingerprint is [one.mp3], the index of the session maps it
    to [two.mp3], and the duplicate is reported against [two.mp3]. And the
    two links of page [same] lead to the same bytes under one link text:
    the second is not fetched and counts as existing, not as a duplicate. *)
Lemma index_keeps_last_existing_path :
  fingerprinted shop fs_shop (scan_paths shop "library")
  = [("library/one.mp3", "3AAA"); ("library/two.mp3", "3AAA")]
  ∧ first_with "3AAA" (fingerprinted shop fs_shop (scan_paths shop "library"))
    = Some "library/one.mp3"
  ∧ existing_fingerprints (run_download shop fs_shop [] "http://e.com/old" "dl" "library").2
      !! "3AAA" = Some "library/two.mp3"
  ∧ msg_queue (run_download shop fs_shop [] "http://e.com/old" "dl" "library").2
    = ["Created download folder: dl";
       "Scanning existing files in: library";
       "Found 1 existing audio files to check against";
       "Fetching page: http://e.com/old";
       "Found 1 audio files to download";
       "Processing 1/1: Old...";
       "Duplicate found: Old matches two.mp3";
       "Download complete: 0 downloaded, 1 duplicates skipped"]
  ∧ (run_download shop fs_shop [] "http://e.com/same" "dl" "").1 = Ok (1, 2, 0)
  ∧ msg_queue (run_download shop fs_shop [] "http://e.com/same" "dl" "").2
    = ["Created download folder: dl";
       "Fetching page: http://e.com/same";
       "Found 2 audio files to download";
       "Processing 1/2: Song...";
       "Downloaded: Song (5 bytes)";
       "Processing 2/2: Song...";
       "File already exists: Song";
       "Download complete: 1 downloaded, 0 duplicates skipped"].
Proof. repeat split; vm_compute; reflexivity. Qed.

(** C6 on the shop: the response 404 of [gone.mp3]. *)
Lemma rejected_response_leaves_nothing_witness :
  process_candidate shop "dl" 3 (0, ("http://e.com/f/gone.mp3", "Gone")) (dl_init fs_shop [])
  = (Ok tt, with_msg "Failed: HTTP 404 for Gone"
              (requested 3 0 "http://e.com/f/gone.mp3" "Gone" (dl_init fs_shop []))).
Proof.
  assert (Hstatus : status_code {| status_code := 404; content_length := None;
                                   content := bytes_of "Not Found"; text := "" |} ≠ 200)
    by discriminate.
  pose proof (rejected_response_leaves_nothing shop "dl" 3 0 "http://e.com/f/gone.mp3" "Gone"
                _ (dl_init fs_shop []) eq_refl eq_refl (or_introl Hstatus))
    as (_ & _ & _ & Hfailed & _).
  exact (Hfailed Hstatus).
Defined.

(** The three rejected responses of page [odd], in one session. *)
Example session_of_rejected_responses :
  let run := run_download shop fs_shop [] "http://e.com/odd" "dl" "" in
  run.1 = Ok (0, 3, 0)
  ∧ files (dl_fs run.2) = files fs_shop
  ∧ msg_queue run.2
    = ["Created download folder: dl"; "Fetching page: http://e.com/odd";
       "Found 3 audio files to download";
       "Processing 1/3: Gone..."; "Failed: HTTP 404 for Gone";
       "Processing 2/3: Short..."; "Corrupted: Short (size mismatch)";
       "Processing 3/3: Empty..."; "Empty file: Empty";
       "Download complete: 0 downloaded, 0 duplicates skipped"].
Proof. repeat split; vm_compute; reflexivity. Qed.

(** The session that the first failing request ends. *)
Example session_ended_by_first_error :
  let run := run_download shop fs_shop [] "http://e.com/bad" "dl" "" in
  run.1 = Ok (0, 0, 0)
  ∧ msg_queue run.2
    = ["Created download folder: dl"; "Fetching page: http://e.com/bad";
       "Found 2 audio files to download"; "Processing 1/2: Down...";
       "Download error: cannot access local variable 'temp_filename' where it is not associated with a value"].
Proof. split; vm_compute; reflexivity. Qed.

(* ================================================================= *)
(** * Further properties of the engine *)

(** ** What the fingerprint tells apart *)

Lemma fingerprint_input_chunks (c1 c2 : list byte) :
  fingerprint_input c1 = fingerprint_input c2
  ↔ length c1 = length c2
    ∧ first_chunk_of c1 = first_chunk_of c2
    ∧ last_chunk_of c1 = last_chunk_of c2.
Proof.
  split.
  - intros H. pose proof (fingerprint_input_size _ _ H) as Hlen.
    split; [done|].
    unfold fingerprint_input in H. rewrite Hlen in H.
    apply app_inv_head in H.
    apply app_inj_1 in H; [done|].
    rewrite !first_chunk_length. by rewrite Hlen.
  - intros (Hlen & H1 & H2). unfold fingerprint_input. by rewrite Hlen, H1, H2.
Qed.

Lemma first_chunk_small (c : list byte) :
  Z.of_nat (length c) ≤ 65536 → first_chunk_of c = c.
Proof. intros H. unfold first_chunk_of. apply take_ge. lia. Qed.

Lemma last_chunk_small (c : list byte) :
  Z.of_nat (length c) ≤ 131072 → last_chunk_of c = [].
Proof.
  intros H. unfold last_chunk_of.
  destruct (131072 <? Z.of_nat (length c)) eqn:Hc; [|done].
  apply Z.ltb_lt in Hc. lia.
Qed.

(** X1. Under an injective hash, two readable files have the same
    fingerprint exactly when they have the same size, the same first 64 KiB
    and the same last 64 KiB (the empty chunk up to 128 KiB). For a file of
    at most 64 KiB the fingerprint is exact: it equals that of another
    readable file exactly when the contents are equal. *)
Theorem equal_fingerprints_iff (E : env) (fs1 fs2 : filesystem) (p1 p2 : string)
    (f1 f2 : file) :
  (∀ a b, sha256_hexdigest E a = sha256_hexdigest E b → a = b) →
  files fs1 !! p1 = Some f1 → files fs2 !! p2 = Some f2 →
  file_access f1 = Readable → file_access f2 = Readable →
  (audio_fingerprint E fs1 p1 = audio_fingerprint E fs2 p2
   ↔ length (file_content f1) = length (file_content f2)
     ∧ first_chunk_of (file_content f1) = first_chunk_of (file_content f2)
     ∧ last_chunk_of (file_content f1) = last_chunk_of (file_content f2))
  ∧ (file_size_of f1 ≤ 65536 →
     audio_fingerprint E fs1 p1 = audio_fingerprint E fs2 p2
     ↔ file_content f1 = file_content f2).
Proof.
  intros Hinj H1 H2 Hr1 Hr2.
  rewrite (audio_fingerprint_readable E fs1 p1 f1 H1 Hr1).
  rewrite (audio_fingerprint_readable E fs2 p2 f2 H2 Hr2).
  assert (Hiff : Ok (sha256_hexdigest E (fingerprint_input (file_content f1)))
                 = Ok (sha256_hexdigest E (fingerprint_input (file_content f2)))
                 ↔ fingerprint_input (file_content f1) = fingerprint_input (file_content f2)).
  { split; [intros [= H]; by apply Hinj|by intros ->]. }
  rewrite Hiff, fingerprint_input_chunks.
  split; [done|].
  intros Hsmall. unfold file_size_of in Hsmall. split.
  - intros (Hlen & Hf & _).
    rewrite !first_chunk_small in Hf by lia. done.
  - by intros ->.
Qed.

Lemma equal_fingerprints_iff_witness :
  audio_fingerprint offline fs_tracks "music/a.mp3"
  = audio_fingerprint offline fs_tracks "music/two.mp3"
  ↔ bytes_of "RIFF" = bytes_of "2".
Proof.
  apply (equal_fingerprints_iff offline fs_tracks fs_tracks "music/a.mp3" "music/two.mp3"
           (new_file (bytes_of "RIFF")) (new_file (bytes_of "2")));
    [exact transparent_digest_inj|reflexivity..|vm_compute; discriminate].
Defined.

Lemma insert_middle_chunks (c : list byte) (i : nat) (b : byte) :
  65536 ≤ Z.of_nat i →
  (131072 < Z.of_nat (length c) → Z.of_nat i < Z.of_nat (length c) - 65536) →
  fingerprint_input (<[i := b]> c) = fingerprint_input c.
Proof.
  intros Hi Hlast. apply fingerprint_input_chunks.
  split; [by rewrite length_insert|]. split.
  - unfold first_chunk_of. apply take_insert_ge. lia.
  - unfold last_chunk_of. rewrite length_insert.
    destruct (131072 <? Z.of_nat (length c)) eqn:Hc; [|done].
    apply Z.ltb_lt in Hc. apply drop_insert_lt. lia.
Qed.

(** X2. The bytes between the first and the last 64 KiB are never read:
    changing the byte at an offset [i] of at least 65536 that lies before
    the last 64 KiB (at any such offset when the file has at most 128 KiB,
    whose tail is not hashed at all) leaves the fingerprint as it was, so
    that the two files are reported as duplicates of each other. *)
Theorem middle_bytes_are_not_hashed (E : env) (fs fs' : filesystem) (p p' : string)
    (f : file) (i : nat) (b : byte) :
  files fs !! p = Some f → file_access f = Readable →
  65536 ≤ Z.of_nat i →
  (131072 < file_size_of f → Z.of_nat i < file_size_of f - 65536) →
  files fs' !! p' = Some (new_file (<[i := b]> (file_content f))) →
  audio_fingerprint E fs' p' = audio_fingerprint E fs p.
Proof.
  intros Hf Hr Hi Hlast Hf'.
  rewrite (audio_fingerprint_readable E fs p f Hf Hr).
  rewrite (audio_fingerprint_readable E fs' p' _ Hf' eq_refl). simpl.
  by rewrite insert_middle_chunks.
Qed.

Lemma middle_bytes_are_not_hashed_witness :
  audio_fingerprint offline fs_long "b.wav" = audio_fingerprint offline fs_long "a.wav".
Proof.
  apply (middle_bytes_are_not_hashed offline fs_long fs_long "a.wav" "b.wav"
           (new_file long_track) (Z.to_nat 65536) "b"%byte).
  - apply lookup_insert_eq.
  - reflexivity.
  - lia.
  - unfold file_size_of, new_file, long_track, file_content.
    rewrite length_replicate. lia.
  - unfold fs_long, files. rewrite lookup_insert_ne by done. apply lookup_singleton_eq.
Defined.

(** ** One folder scanned against itself *)

Lemma pairs_from_app (seen F1 F2 : list (string * string)) :
  pairs_from seen (F1 ++ F2) = pairs_from seen F1 ++ pairs_from (seen ++ F1) F2.
Proof.
  revert seen. induction F1 as [|[p h] F1 IH]; intros seen; simpl.
  - by rewrite app_nil_r.
  - rewrite IH, <- !app_assoc. done.
Qed.

Lemma first_with_elem (seen : list (string * string)) (x : string * string) :
  x ∈ seen → is_Some (first_with x.2 seen).
Proof.
  induction seen as [|y seen IH]; [by intros ?%elem_of_nil|].
  intros [->|Hin]%elem_of_cons; unfold first_with; simpl.
  - rewrite bool_decide_eq_true_2 by done. by eexists.
  - destruct (bool_decide (y.2 = x.2)); [by eexists|]. by apply IH.
Qed.

Lemma pairs_from_all_seen (seen0 seen F : list (string * string)) :
  (∀ x, x ∈ F → is_Some (first_with x.2 seen0)) →
  (∀ h, is_Some (first_with h seen0) → first_with h seen = first_with h seen0) →
  pairs_from seen F = map (fun x => (original_of seen0 x, x.1)) F.
Proof.
  revert seen. induction F as [|[p h] F IH]; intros seen HF Hseen; [done|].
  simpl. destruct (HF (p, h)) as [o Ho]; [left|].
  rewrite (Hseen h) by (by eexists). simpl in Ho. rewrite Ho. simpl.
  unfold original_of at 1. simpl. rewrite Ho. simpl. f_equal.
  apply IH.
  - intros x Hx. apply HF. by right.
  - intros h' Hh'. rewrite first_with_snoc, (Hseen h' Hh').
    destruct Hh' as [o' ->]. done.
Qed.

Lemma first_with_None (h : string) (seen : list (string * string)) :
  first_with h seen = None ↔ h ∉ seen.*2.
Proof.
  induction seen as [|[p h'] seen IH]; simpl.
  - split; [intros _ ?%elem_of_nil|]; done.
  - unfold first_with in *. simpl. rewrite elem_of_cons.
    destruct (bool_decide_reflect (h' = h)) as [->|Hne]; simpl.
    + split; [done|]. intros H. destruct H. by left.
    + rewrite IH. split; [intros H [?|?]; by subst|]. intros H ?. apply H. by right.
Qed.

Lemma pairs_from_NoDup (seen F : list (string * string)) :
  NoDup (seen ++ F).*2 → pairs_from seen F = [].
Proof.
  revert seen. induction F as [|[p h] F IH]; intros seen Hnd; [done|].
  simpl. rewrite fmap_app in Hnd. simpl in Hnd.
  assert (Hh : h ∉ seen.*2).
  { apply NoDup_app in Hnd as (_ & Hd & _). intros Hin. apply (Hd h Hin). by left. }
  apply first_with_None in Hh. rewrite Hh. simpl.
  apply IH. rewrite <- app_assoc. simpl. by rewrite fmap_app.
Qed.

Lemma original_of_NoDup (F : list (string * string)) (x : string * string) :
  NoDup F.*2 → x ∈ F → original_of F x = x.1.
Proof.
  unfold original_of. induction F as [|y F IH]; [by intros _ ?%elem_of_nil|].
  simpl. intros [Hy Hnd]%NoDup_cons [->|Hin]%elem_of_cons; unfold first_with; simpl.
  - by rewrite bool_decide_eq_true_2.
  - destruct (bool_decide_reflect (y.2 = x.2)) as [Heq|Hne]; simpl.
    + destruct Hy. rewrite Heq. apply list_elem_of_fmap. by exists x.
    + by apply IH.
Qed.

(** X3. [find_duplicates] does not compare its two folders: given the
    same folder twice it walks it twice. With [F] the fingerprinted files of
    the folder, the second walk adds one pair for every file of [F], led by
    the first file of [F] with that fingerprint, after the pairs found
    within the folder, and every file is counted twice. When the
    fingerprints of [F] are pairwise distinct, every file is reported as a
    duplicate of itself and nothing else is reported. *)
Theorem same_folder_twice (E : env) (fs : filesystem) (folder : string) (q : list string) :
  let F := fingerprinted E fs (scan_paths E folder) in
  (find_duplicates E fs folder folder q).1
  = (pairs_from [] F ++ map (fun x => (original_of F x, x.1)) F, 2 * Z.of_nat (length F))
  ∧ (∀ x, x ∈ F → first_with x.2 F = Some (original_of F x))
  ∧ (NoDup F.*2 →
     (find_duplicates E fs folder folder q).1.1 = map (fun x => (x.1, x.1)) F).
Proof.
  intros F. unfold find_duplicates. simpl.
  rewrite find_duplicates_state_paths.
  destruct (scan_paths_spec E fs (scan_paths E folder ++ scan_paths E folder)
              (scan_init q) [] (index_of_init q)) as (_ & Hd & Hc).
  simpl in Hd, Hc. rewrite Hd, Hc, fingerprinted_app. fold F.

  assert (Hsnd : pairs_from [] (F ++ F)
                 = pairs_from [] F ++ map (fun x => (original_of F x, x.1)) F).
  { rewrite pairs_from_app. simpl. f_equal.
    apply pairs_from_all_seen; [intros x Hx; by apply first_with_elem|done]. }
  split; [|split].
  - rewrite Hsnd, length_app. f_equal. lia.
  - intros x Hx. unfold original_of.
    destruct (first_with_elem F x Hx) as [o Ho]. by rewrite Ho.
  - intros Hnd. rewrite Hsnd, (pairs_from_NoDup [] F) by done. simpl.
    apply map_ext_in. intros x Hx%list_elem_of_In.
    by rewrite original_of_NoDup.
Qed.

Example same_folder_twice_ex :
  find_duplicates two_folders fs_tracks "music" "music" []
  = (([("music/a.mp3", "music/a.mp3")], 2), []).
Proof. reflexivity. Qed.

(** ** The events of a scan *)

Lemma scan_paths_msgs (E : env) (fs : filesystem) (paths : list string) (st : scan_state) :
  scan_msgs (foldl (scan_path E fs) st paths)
  = scan_msgs st ++ omap (skipped_msg E fs) paths.
Proof.
  revert st. induction paths as [|p paths IH]; intros st; simpl.
  - by rewrite app_nil_r.
  - rewrite IH. unfold skipped_msg at 2, scan_path.
    destruct (audio_fingerprint E fs p) as [h|e]; simpl.
    + by destruct (fingerprints st !! h).
    + by rewrite <- app_assoc.
Qed.

Lemma counted_or_skipped (E : env) (fs : filesystem) (paths : list string) :
  (length (fingerprinted E fs paths) + length (omap (skipped_msg E fs) paths))%nat
  = length paths.
Proof.
  unfold fingerprinted, skipped_msg.
  induction paths as [|p paths IH]; [done|]. csimpl.
  destruct (audio_fingerprint E fs p); csimpl; lia.
Qed.

(** X4. No audio file is dropped silently by [find_duplicates]: the queue
    receives, in traversal order, one Skipped event for every audio file
    that could not be fingerprinted and nothing else, and the files counted
    and the events queued add up to the audio files found. A file that is
    missing when its turn comes has its event in the queue. *)
Theorem every_audio_file_is_counted_or_reported (E : env) (fs : filesystem)
    (folder1 folder2 : string) (q : list string) :
  let paths := scan_paths E folder1 ++ scan_paths E folder2 in
  let run := find_duplicates E fs folder1 folder2 q in
  run.2 = q ++ omap (skipped_msg E fs) paths
  ∧ run.1.2 + Z.of_nat (length run.2 - length q) = Z.of_nat (length paths)
  ∧ (∀ p, p ∈ paths → files fs !! p = None →
          ∃ m, skipped_msg E fs p = Some m ∧ m ∈ run.2).
Proof.
  intros paths run.
  assert (Hmsgs : run.2 = q ++ omap (skipped_msg E fs) paths).
  { unfold run, find_duplicates. simpl.
    rewrite find_duplicates_state_paths, scan_paths_msgs. done. }
  split; [done|]. split.
  - rewrite Hmsgs, length_app.
    unfold run, find_duplicates. simpl. rewrite find_duplicates_state_paths.
    destruct (scan_paths_spec E fs paths (scan_init q) [] (index_of_init q)) as (_ & _ & Hc).
    simpl in Hc. fold paths. rewrite Hc.
    pose proof (counted_or_skipped E fs paths). lia.
  - intros p Hp Hnone. rewrite Hmsgs.
    pose proof (audio_fingerprint_missing E fs p Hnone) as Hfp.
    assert (Hm : ∃ m, skipped_msg E fs p = Some m).
    { unfold skipped_msg. rewrite Hfp. by eexists. }
    destruct Hm as [m Hm]. exists m. split; [done|].
    apply elem_of_app. right. apply list_elem_of_omap. by exists p.
Qed.

(** ** The counters of a session *)

Ltac run_statements :=
  unfold size_mismatch, int_of, read_temp_filename, write_file, os_remove, os_rename,
    os_path_exists, http_get, fingerprint, put_msg, try_except, modify, gets, raise, lift,
    mbind, M_bind, mret, M_ret in *;
  cbn -[Z.add] in *;
  repeat (case_match; simplify_eq/=).

Section counters.
Context (E : env).

Lemma counted_trans (a b : Z) (s1 s2 s3 : dl_state) :
  counted a s1 s2 → counted b s2 s3 → counted (a + b) s1 s3.
Proof. unfold counted. lia. Qed.

Lemma counted_weaken (a b : Z) (s1 s2 : dl_state) :
  a ≤ b → counted a s1 s2 → counted b s1 s2.
Proof. unfold counted. lia. Qed.

Lemma check_duplicate_counted (label temp : string) (s : dl_state) :
  ∃ (b : bool) s', check_duplicate E label temp s = (Ok b, s')
                   ∧ counted (if b then 1 else 0) s s'.
Proof.
  unfold check_duplicate, counted. run_statements; eexists _, _; (split; [reflexivity|]); cbn; lia.
Qed.

Lemma keep_file_counted (label temp filename : string) (r : response) (s : dl_state) :
  counted 1 s (keep_file E label temp filename r s).2.
Proof. unfold keep_file, counted. run_statements; cbn; lia. Qed.

Lemma fetch_failed_counted (label : string) (e : exn) (s : dl_state) :
  counted 0 s (fetch_failed label e s).2.
Proof. unfold fetch_failed, counted. run_statements; cbn; lia. Qed.

Lemma fetch_candidate_counted (link label filename : string) (s : dl_state) :
  counted 1 s (fetch_candidate E link label filename s).2.
Proof.
  unfold fetch_candidate.
  unfold mbind at 1, M_bind at 1. rewrite http_get_run.
  destruct (requests_get E link) as [r|e]; [|unfold counted; cbn; lia].
  destruct (negb (status_code r =? 200)); [unfold counted; cbn; lia|].
  unfold mbind at 1, M_bind at 1.
  pose proof (size_mismatch_state E r (with_request link s)) as Hs.
  destruct (size_mismatch E r (with_request link s)) as [[[]|e] s1]; simpl in Hs; subst s1;
    [unfold counted; cbn; lia| |unfold counted; cbn; lia].
  destruct (Z.of_nat (length (content r)) =? 0); [unfold counted; cbn; lia|].
  cbn zeta.
  unfold mbind at 1, M_bind at 1, modify at 1.
  unfold mbind at 1, M_bind at 1, write_file at 1.
  case_bool_decide; [unfold counted; cbn; lia|].
  match goal with |- context [(check_duplicate E label ?t ≫= _) ?s0] =>
    destruct (check_duplicate_counted label t s0) as (b & s2 & Hrun & Hc);
    rewrite (bind_ok _ _ _ _ _ Hrun) end.
  destruct b.
  - unfold counted in *. cbn in *. lia.
  - match goal with |- context [keep_file E label ?t filename r s2] =>
      pose proof (keep_file_counted label t filename r s2) as Hk end.
    unfold counted in *. cbn in *. lia.
Qed.

Lemma process_candidate_counted (download_folder : string) (total : Z)
    (c : Z * (string * string)) (s : dl_state) :
  counted 1 s (process_candidate E download_folder total c s).2.
Proof.
  destruct c as [i [link label]]. rewrite process_candidate_unfold. cbn zeta.
  destruct (path_exists (dl_fs s) (dest_filename download_folder link label)).
  { unfold counted. cbn. lia. }
  unfold try_except.
  pose proof (fetch_candidate_counted link label (dest_filename download_folder link label)
                (started total i label s)) as Hf.
  destruct (fetch_candidate E link label _ _) as [[[]|e] s1]; simpl in Hf.
  - unfold counted in *. cbn in *. lia.
  - pose proof (fetch_failed_counted label e s1) as Hh.
    unfold counted in *. cbn in *. lia.
Qed.

Lemma for_each_counted {A} (body : A → M unit) (l : list A) (s : dl_state) :
  (∀ x s0, counted 1 s0 (body x s0).2) →
  counted (Z.of_nat (length l)) s (for_each body l s).2.
Proof.
  intros Hbody. revert s. induction l as [|x l IH]; intros s.
  - unfold counted. cbn. lia.
  - cbn [for_each]. unfold mbind, M_bind.
    pose proof (Hbody x s) as Hx.
    destruct (body x s) as [[[]|e] s1]; simpl in Hx.
    + pose proof (IH s1) as Hl. unfold counted in *. cbn [length]. lia.
    + unfold counted in *. cbn [length snd]. lia.
Qed.

End counters.

(** X5. Whatever the disk and the network do, [download_audio_files]
    returns a triple (downloaded, candidates, duplicates skipped) of
    non-negative numbers in which the downloads and the skipped duplicates
    together do not exceed the candidates: every candidate is counted at
    most once. *)
Theorem download_counts_are_bounded (E : env) (url download_folder existing_folder : string)
    (s : dl_state) :
  ∃ successful total skipped s',
    download_audio_files E url download_folder existing_folder s
    = (Ok (successful, total, skipped), s')
    ∧ 0 ≤ successful ∧ 0 ≤ skipped ∧ successful + skipped ≤ total.
Proof.
  unfold download_audio_files, try_except.
  destruct (download_body E url download_folder existing_folder s) as [[counts|e] s'] eqn:Hbody.
  2:{ eexists 0, 0, 0, _. split; [reflexivity|lia]. }
  destruct counts as [[a t] k]. exists a, t, k, s'. split; [done|].
  revert Hbody. unfold download_body.
  unfold mbind at 1, M_bind at 1.
  destruct (os_makedirs download_folder s) as [[[]|e] s1]; [|done].
  rewrite (bind_ok _ _ _ _ tt (put_msg_run _ _)).
  match goal with |- context [(prescan E existing_folder ≫= _) ?s0] =>
    destruct (prescan_run E existing_folder s0) as (s2 & Hpre & _) end.
  rewrite (bind_ok _ _ _ _ tt Hpre).
  rewrite (bind_ok _ _ _ _ tt (put_msg_run _ _)).
  unfold mbind at 1, M_bind at 1. rewrite http_get_run.
  destruct (requests_get E url) as [page|e]; [|done].
  cbn zeta.
  rewrite (bind_ok _ _ _ _ tt (put_msg_run _ _)).
  rewrite (bind_ok _ _ _ _ tt) by reflexivity.
  rewrite (bind_ok _ _ _ _ tt) by reflexivity.
  unfold mbind at 1, M_bind at 1.
  match goal with |- context [for_each ?body ?l ?s0] =>
    pose proof (for_each_counted body l s0 (process_candidate_counted E download_folder _)) as Hc;
    destruct (for_each body l s0) as [[[]|e] s3]; [|done] end.
  intros [= <- <- <- <-].
  unfold enumerate in Hc. rewrite length_imap in Hc. unfold counted in Hc. cbn in Hc. lia.
Qed.

(** ** The footprint of a session *)

Ltac unchanged := unfold frame; cbn; repeat split; auto.

Lemma endswith_tmp (p : string) : Py.endswith (p +:+ ".tmp") ".tmp" = true.
Proof. apply endswith_spec. exists (Py.chars p). apply chars_app. Qed.

Section footprint.
Context (E : env).

Lemma frame_trans (filename : string) (s1 s2 s3 : dl_state) :
  frame filename s1 s2 → frame filename s2 s3 → frame filename s1 s3.
Proof.
  unfold frame. intros (H1 & H2 & H3) (H4 & H5 & H6).
  split; [|split].
  - intros p Hp Hp' Ht. rewrite H4, H1; try done.
    destruct H3 as [->| ->]; [done|congruence].
  - congruence.
  - destruct H6 as [H6|H6]; [rewrite H6; exact H3|by right].
Qed.

Lemma check_duplicate_frame (label filename : string) (s : dl_state) :
  frame filename s (check_duplicate E label (filename +:+ ".tmp") s).2.
Proof.
  unfold check_duplicate.
  run_statements; unchanged; intros; by rewrite lookup_delete_ne.
Qed.

Lemma keep_file_frame (label filename : string) (r : response) (s : dl_state) :
  frame filename s (keep_file E label (filename +:+ ".tmp") filename r s).2.
Proof.
  unfold keep_file.
  run_statements; unchanged; intros; by rewrite lookup_insert_ne, lookup_delete_ne.
Qed.

Lemma fetch_failed_frame (label filename : string) (e : exn) (s : dl_state) :
  frame filename s (fetch_failed label e s).2.
Proof.
  unfold fetch_failed.
  run_statements; unchanged.
  intros. rewrite lookup_delete_ne; [done|]. congruence.
Qed.

Lemma fetch_candidate_frame (link label filename : string) (s : dl_state) :
  frame filename s (fetch_candidate E link label filename s).2.
Proof.
  unfold fetch_candidate.
  unfold mbind at 1, M_bind at 1. rewrite http_get_run.
  destruct (requests_get E link) as [r|e]; [|unchanged].
  destruct (negb (status_code r =? 200)); [unchanged|].
  unfold mbind at 1, M_bind at 1.
  pose proof (size_mismatch_state E r (with_request link s)) as Hs.
  destruct (size_mismatch E r (with_request link s)) as [[[]|e] s1]; simpl in Hs; subst s1;
    [unchanged| |unchanged].
  destruct (Z.of_nat (length (content r)) =? 0); [unchanged|].
  cbn zeta.
  unfold mbind at 1, M_bind at 1, modify at 1.
  unfold mbind at 1, M_bind at 1, write_file at 1.
  case_bool_decide; [unchanged|].
  match goal with |- context [(check_duplicate E label _ ≫= _) ?s0] =>
    assert (Hw : frame filename s s0)
      by (unchanged; intros; cbn; by rewrite lookup_insert_ne);
    pose proof (check_duplicate_frame label filename s0) as Hc;
    unfold mbind at 1, M_bind at 1;
    destruct (check_duplicate E label _ s0) as [[b|e] s2] end; simpl in Hc.
  2:{ by apply (frame_trans _ _ _ _ Hw). }
  destruct b; [by apply (frame_trans _ _ _ _ Hw)|].
  apply (frame_trans _ _ _ _ Hw), (frame_trans _ _ _ _ Hc).
  by apply keep_file_frame.
Qed.

(** One iteration of the loop: its footprint; and when the destination
    exists the disk is left as it was. *)
Lemma process_candidate_frame (download_folder : string) (total i : Z)
    (link label : string) (s : dl_state) :
  let filename := dest_filename download_folder link label in
  let s' := (process_candidate E download_folder total (i, (link, label)) s).2 in
  frame filename s s'
  ∧ (path_exists (dl_fs s) filename = true → dl_fs s' = dl_fs s).
Proof.
  intros filename. rewrite process_candidate_unfold. cbn zeta. fold filename.
  destruct (path_exists (dl_fs s) filename) eqn:Hex.
  { split; [unchanged|done]. }
  split; [|done].
  unfold try_except.
  pose proof (fetch_candidate_frame link label filename (started total i label s)) as Hfetch.
  destruct (fetch_candidate E link label filename _) as [[[]|e] s1]; simpl in Hfetch.
  - exact Hfetch.
  - exact (frame_trans _ _ _ _ Hfetch (fetch_failed_frame label filename e s1)).
Qed.

Lemma frame_temp_is_tmp (filename : string) (s s' : dl_state) :
  frame filename s s' → temp_is_tmp s → temp_is_tmp s'.
Proof.
  intros (_ & _ & Ht) Hs t Hbound. destruct Ht as [Ht|Ht]; rewrite Ht in Hbound.
  - by apply Hs.
  - injection Hbound as <-. apply endswith_tmp.
Qed.

(** One iteration leaves every file alone whose path does not end in
    [.tmp], also the file at the destination when there is one. *)
Lemma process_candidate_keeps (download_folder : string) (total : Z)
    (c : Z * (string * string)) (s : dl_state) :
  temp_is_tmp s →
  let s' := (process_candidate E download_folder total c s).2 in
  (∀ p f, Py.endswith p ".tmp" = false → files (dl_fs s) !! p = Some f →
          files (dl_fs s') !! p = Some f)
  ∧ dirs (dl_fs s') = dirs (dl_fs s) ∧ temp_is_tmp s'.
Proof.
  intros Htmp. destruct c as [i [link label]].
  destruct (process_candidate_frame download_folder total i link label s) as (Hframe & Hskip).
  cbn zeta in *.
  split; [|split].
  - intros p f Hp Hf.
    destruct (path_exists (dl_fs s) (dest_filename download_folder link label)) eqn:Hex.
    { by rewrite Hskip. }
    apply path_exists_false in Hex as [Hnone _].
    destruct Hframe as (Hu & _). rewrite Hu; [done|congruence| |].
    + intros ->. by rewrite endswith_tmp in Hp.
    + intros Hb. apply Htmp in Hb. congruence.
  - by destruct Hframe as (_ & Hd & _).
  - by apply (frame_temp_is_tmp _ _ _ Hframe).
Qed.

Lemma for_each_keeps {A} (body : A → M unit) (l : list A) (s : dl_state) :
  (∀ x s0, temp_is_tmp s0 →
     (∀ p f, Py.endswith p ".tmp" = false → files (dl_fs s0) !! p = Some f →
             files (dl_fs (body x s0).2) !! p = Some f)
     ∧ dirs (dl_fs (body x s0).2) = dirs (dl_fs s0) ∧ temp_is_tmp (body x s0).2) →
  temp_is_tmp s →
  let s' := (for_each body l s).2 in
  (∀ p f, Py.endswith p ".tmp" = false → files (dl_fs s) !! p = Some f →
          files (dl_fs s') !! p = Some f)
  ∧ dirs (dl_fs s') = dirs (dl_fs s).
Proof.
  intros Hbody. revert s. induction l as [|x l IH]; intros s Htmp.
  - by split.
  - cbn [for_each]. unfold mbind, M_bind.
    destruct (Hbody x s Htmp) as (Hf1 & Hd1 & Htmp1).
    destruct (body x s) as [[[]|e] s1]; simpl in *.
    + destruct (IH s1 Htmp1) as (Hf2 & Hd2). split; [|congruence].
      intros p f Hp Hf. apply Hf2; [done|]. by apply Hf1.
    + by split.
Qed.

End footprint.

(** X6. A session never changes or removes a file that was on the disk
    when it started, unless the path of that file ends in [.tmp]: an
    existing destination is skipped and never overwritten. It removes no
    directory. *)
Theorem session_keeps_existing_files (E : env) (fs : filesystem) (q : list string)
    (url download_folder existing_folder : string) :
  let run := run_download E fs q url download_folder existing_folder in
  (∀ p f, files fs !! p = Some f → Py.endswith p ".tmp" = false →
          files (dl_fs run.2) !! p = Some f)
  ∧ dirs fs ⊆ dirs (dl_fs run.2).
Proof.
  intros run.
  set (P := fun s' : dl_state =>
         (∀ p f, Py.endswith p ".tmp" = false → files fs !! p = Some f →
                 files (dl_fs s') !! p = Some f)
         ∧ (dirs (dl_fs s') = dirs fs ∨ dirs (dl_fs s') = {[download_folder]} ∪ dirs fs)).
  assert (Hgoal : P run.2).
  2:{ destruct Hgoal as (Hf & Hd). split; [intros p f ??; by apply Hf|].
      destruct Hd as [-> | ->]; set_solver. }
  assert (Hmsg : ∀ m s', P s' → P (with_msg m s')) by done.
  unfold run, run_download, download_audio_files, try_except, download_body.
  unfold mbind at 1, M_bind at 1.
  assert (Hmk : ∃ r s1, os_makedirs download_folder (dl_init fs q) = (r, s1)
                        ∧ files (dl_fs s1) = files fs
                        ∧ (dirs (dl_fs s1) = dirs fs
                           ∨ dirs (dl_fs s1) = {[download_folder]} ∪ dirs fs)
                        ∧ temp_filename s1 = None).
  { unfold os_makedirs. repeat case_match; eexists _, _; (split; [reflexivity|]); cbn; auto. }
  destruct Hmk as (r1 & s1 & -> & Hf1 & Hd1 & Ht1).
  assert (H1 : P s1) by (split; [intros p f _ Hf; by rewrite Hf1|done]).
  destruct r1 as [[]|e]; [|by apply Hmsg].
  rewrite (bind_ok _ _ _ _ tt (put_msg_run _ _)).
  match goal with |- context [(prescan E existing_folder ≫= _) ?s0] =>
    destruct (prescan_run E existing_folder s0)
      as (s2 & Hpre & Hfs2 & _ & _ & _ & Ht2 & _) end.
  rewrite (bind_ok _ _ _ _ tt Hpre).
  rewrite (bind_ok _ _ _ _ tt (put_msg_run _ _)).
  cbn in Hfs2, Ht2.
  assert (H2 : P s2) by (unfold P; by rewrite Hfs2).
  unfold mbind at 1, M_bind at 1. rewrite http_get_run.
  destruct (requests_get E url) as [page|e]; [|by apply Hmsg].
  cbn zeta.
  rewrite (bind_ok _ _ _ _ tt (put_msg_run _ _)).
  rewrite (bind_ok _ _ _ _ tt) by reflexivity.
  rewrite (bind_ok _ _ _ _ tt) by reflexivity.
  unfold mbind at 1, M_bind at 1.
  match goal with |- context [for_each ?body ?l ?s0] =>
    assert (Ht0 : temp_is_tmp s0) by (intros t; cbn; rewrite Ht2, Ht1; done);
    pose proof (for_each_keeps body l s0
                  (fun x s' => process_candidate_keeps E download_folder _ x s') Ht0)
      as (Hkeep & Hdirs);
    destruct (for_each body l s0) as [[[]|e] s3] end;
    cbn in Hkeep, Hdirs; apply Hmsg; destruct H2 as (Hf2 & Hd2);
    (split; [intros p f Hp Hf; apply Hkeep; [done|]; by apply Hf2|by rewrite Hdirs]).
Qed.

(** A file at the temporary path of a download is not kept: it is
    overwritten, then renamed to the destination. *)
Example temporary_path_is_overwritten :
  let run := run_download shop fs_shop_tmp [] "http://e.com/p" "dl" "" in
  files fs_shop_tmp !! "dl/New.mp3.tmp" = Some (new_file (bytes_of "notes"))
  ∧ files (dl_fs run.2) !! "dl/New.mp3.tmp" = None
  ∧ files (dl_fs run.2) !! "dl/New.mp3" = Some (new_file (bytes_of "hello")).
Proof. repeat split; vm_compute; reflexivity. Qed.

(** ** The destination of a candidate *)

Lemma after_last_free (c : ascii) (acc l : list ascii) :
  c ∉ l → Py.after_last c acc l = acc ++ l.
Proof.
  revert acc. induction l as [|x l IH]; intros acc Hc; simpl.
  - by rewrite app_nil_r.
  - apply not_elem_of_cons in Hc as [Hx Hl].
    rewrite bool_decide_eq_false_2 by done.
    rewrite IH by done. by rewrite <- app_assoc.
Qed.

Lemma after_last_app (c : ascii) (acc l1 l2 : list ascii) :
  Py.after_last c acc (l1 ++ c :: l2) = Py.after_last c [] l2.
Proof.
  revert acc. induction l1 as [|x l1 IH]; intros acc; simpl.
  - by rewrite bool_decide_eq_true_2.
  - case_bool_decide; apply IH.
Qed.

Lemma after_last_clean (c : ascii) (acc l : list ascii) :
  c ∉ acc → c ∉ Py.after_last c acc l.
Proof.
  revert acc. induction l as [|x l IH]; intros acc Hacc; simpl; [done|].
  case_bool_decide as Hx.
  - apply IH. apply not_elem_of_nil.
  - apply IH. rewrite elem_of_app, list_elem_of_singleton. intros [?|?]; congruence.
Qed.

Lemma last_segment_clean (s : string) : "/"%char ∉ Py.chars (Py.last_segment s).
Proof.
  unfold Py.last_segment. rewrite chars_unchars.
  apply after_last_clean, not_elem_of_nil.
Qed.

Lemma splitext_ext_suffix (p : string) :
  ∃ pre, Py.chars p = pre ++ Py.chars (Py.splitext_ext p).
Proof.
  unfold Py.splitext_ext.
  cbv zeta.
  match goal with |- context [?u (reverse (Py.chars p))] =>
    lazymatch u with (fix upto (l : list ascii) {struct l} := _) => set (upto := u) end end.
  assert (Hupto : ∀ l e rest, upto l = Some (e, rest) → l = e ++ rest).
  { induction l as [|x l IH]; intros e rest; simpl; [done|].
    case_bool_decide; [by intros [= <- <-]|].
    destruct (upto l) as [[e' rest']|] eqn:Hl; [|done].
    intros [= <- <-]. simpl. f_equal. by apply IH. }
  destruct (upto (reverse (Py.chars p))) as [[e before]|] eqn:Hr.
  2:{ exists (Py.chars p). by rewrite app_nil_r. }
  destruct (existsb _ before).
  2:{ exists (Py.chars p). by rewrite app_nil_r. }
  apply Hupto in Hr. exists (reverse before).
  rewrite chars_unchars, <- reverse_app, <- Hr. by rewrite reverse_involutive.
Qed.

Lemma sub_unsafe_safe (label : string) :
  Forall (fun c => Py.is_unsafe c = false) (Py.chars (Py.sub_unsafe label)).
Proof.
  unfold Py.sub_unsafe. rewrite chars_unchars.
  apply Forall_forall. intros c [x [-> _]]%list_elem_of_fmap.
  by destruct (Py.is_unsafe x) eqn:Hx.
Qed.

Lemma unchars_length (l : list ascii) : String.length (Py.unchars l) = length l.
Proof. induction l as [|c l IH]; simpl; [done|]. by rewrite IH. Qed.

Lemma chars_length (s : string) : length (Py.chars s) = String.length s.
Proof. by rewrite <- (unchars_length (Py.chars s)), unchars_chars. Qed.

Lemma sub_unsafe_length (label : string) :
  String.length (Py.sub_unsafe label) = String.length label.
Proof. unfold Py.sub_unsafe. by rewrite unchars_length, length_map, chars_length. Qed.

Lemma basename_join (a b : string) :
  "/"%char ∉ Py.chars b →
  Py.basename (Py.path_join a b) = b
  ∧ (Py.path_join a b = a +:+ b ∨ Py.path_join a b = a +:+ "/" +:+ b).
Proof.
  intros Hb. unfold Py.path_join.
  assert (Hstart : Py.startswith b "/" = false).
  { apply not_true_is_false. intros [r Hr]%prefixb_spec.
    apply Hb. rewrite Hr. by left. }
  rewrite Hstart. unfold Py.basename.
  destruct (bool_decide (a = "") || Py.endswith a "/") eqn:Ha.
  - split; [|by left].
    apply orb_true_iff in Ha as [Ha|Ha].
    + apply bool_decide_eq_true in Ha as ->. simpl.
      rewrite after_last_free by done. apply unchars_chars.
    + apply endswith_spec in Ha as [pre Hpre].
      rewrite chars_app, Hpre, <- app_assoc. simpl.
      rewrite after_last_app, after_last_free by done. apply unchars_chars.
  - split; [|by right].
    rewrite !chars_app. simpl.
    rewrite after_last_app, after_last_free by done. apply unchars_chars.
Qed.

(** X7. The destination of a candidate lies directly in the download
    folder, whatever the link and the link text: its file name, the
    sanitised text followed by the extension of the link, holds no slash,
    so that it is the base name of the destination, which is the folder
    followed by that name, with a slash between them unless the folder is
    empty or ends in one. The sanitised text has the length of the link
    text and none of the nine reserved characters. *)
Theorem destination_is_inside_folder (download_folder link label : string) :
  let name := Py.sub_unsafe label +:+ Py.splitext_ext (Py.last_segment link) in
  let filename := dest_filename download_folder link label in
  ("/"%char ∉ Py.chars name)
  ∧ Py.basename filename = name
  ∧ (filename = download_folder +:+ name ∨ filename = download_folder +:+ "/" +:+ name)
  ∧ Forall (fun c => Py.is_unsafe c = false) (Py.chars (Py.sub_unsafe label))
  ∧ String.length (Py.sub_unsafe label) = String.length label.
Proof.
  intros name filename.
  assert (Hname : "/"%char ∉ Py.chars name).
  { unfold name. rewrite chars_app, elem_of_app. intros [Hin|Hin].
    - pose proof (sub_unsafe_safe label) as Hs.
      rewrite Forall_forall in Hs. by apply Hs in Hin.
    - destruct (splitext_ext_suffix (Py.last_segment link)) as [pre Hpre].
      apply (last_segment_clean link). rewrite Hpre, elem_of_app. by right. }
  split; [done|].
  destruct (basename_join download_folder name Hname) as [Hb Hj].
  repeat split; [exact Hb|exact Hj|apply sub_unsafe_safe|apply sub_unsafe_length].
Qed.

(** ** Sessions that end before the loop *)

Section early.
Context (E : env) (fs : filesystem) (q : list string)
        (url download_folder existing_folder : string).

(** X8. When the download folder cannot be made (its path is empty or
    that of a regular file), the session queues one Download error event
    and returns three zeros: nothing is scanned, nothing is requested and
    the disk is left as it was. *)
Theorem unusable_download_folder :
  download_folder = "" ∨ is_Some (files fs !! download_folder) →
  ∃ e, (e = FileNotFoundError download_folder ∨ e = FileExistsError download_folder)
       ∧ run_download E fs q url download_folder existing_folder
         = (Ok (0, 0, 0), with_msg ("Download error: " +:+ str_exn e) (dl_init fs q)).
Proof.
  intros Hbad.
  unfold run_download, download_audio_files, try_except, download_body.
  unfold mbind at 1, M_bind at 1, os_makedirs at 1.
  case_bool_decide as Hempty; [eexists; split; [by left|done]|].
  destruct Hbad as [?|Hfile]; [done|].
  rewrite bool_decide_eq_true_2 by done.
  eexists; split; [by right|done].
Qed.

(** X9. When the request of the page raises, the session returns three
    zeros after a Download error event that carries the text of the
    exception; the page was the only request, and the download folder made
    before it stays on the disk. *)
Theorem unreachable_page (e : exn) :
  download_folder ≠ "" → files fs !! download_folder = None →
  requests_get E url = Raise e →
  let run := run_download E fs q url download_folder existing_folder in
  run.1 = Ok (0, 0, 0)
  ∧ net_log run.2 = [url]
  ∧ dl_fs run.2 = made download_folder fs
  ∧ last (msg_queue run.2) = Some ("Download error: " +:+ str_exn e).
Proof.
  intros Hne Hfile Hget run.
  unfold run, run_download, download_audio_files, try_except, download_body.
  rewrite (bind_ok _ _ _ _ tt (os_makedirs_run download_folder (dl_init fs q) Hne Hfile)).
  rewrite (bind_ok _ _ _ _ tt (put_msg_run _ _)).
  match goal with |- context [(prescan E existing_folder ≫= _) ?s0] =>
    destruct (prescan_run E existing_folder s0)
      as (s2 & Hpre & Hfs2 & Hnet2 & _) end.
  rewrite (bind_ok _ _ _ _ tt Hpre).
  rewrite (bind_ok _ _ _ _ tt (put_msg_run _ _)).
  rewrite (bind_raise _ _ _ _ e) by (by rewrite http_get_run, Hget).
  cbn [fst snd]. unfold mbind, M_bind. rewrite put_msg_run.
  unfold mret, M_ret. cbn [fst snd net_log dl_fs msg_queue with_msg with_request].
  rewrite Hnet2, Hfs2. cbn. by rewrite last_snoc.
Qed.

End early.

Lemma unusable_download_folder_witness :
  ∃ e, (e = FileNotFoundError "dl/Have.mp3" ∨ e = FileExistsError "dl/Have.mp3")
       ∧ run_download shop fs_shop [] "http://e.com/p" "dl/Have.mp3" ""
         = (Ok (0, 0, 0), with_msg ("Download error: " +:+ str_exn e) (dl_init fs_shop [])).
Proof.
  apply (unusable_download_folder shop fs_shop [] "http://e.com/p" "dl/Have.mp3" "").
  right. by eexists.
Defined.

Lemma unreachable_page_witness :
  (run_download shop fs_shop [] "http://e.com/nowhere" "dl" "").1 = Ok (0, 0, 0)
  ∧ net_log (run_download shop fs_shop [] "http://e.com/nowhere" "dl" "").2
    = ["http://e.com/nowhere"]
  ∧ dl_fs (run_download shop fs_shop [] "http://e.com/nowhere" "dl" "").2
    = made "dl" fs_shop
  ∧ last (msg_queue (run_download shop fs_shop [] "http://e.com/nowhere" "dl" "").2)
    = Some "Download error: connection refused".
Proof.
  assert (Hne : "dl" ≠ "") by discriminate.
  exact (unreachable_page shop fs_shop [] "http://e.com/nowhere" "dl" ""
           (RequestException "connection refused") Hne eq_refl eq_refl).
Defined.
